(** * migrate.py: legacy/modern networking migration helper

    A shallow embedding of [src/migrate.py] and the properties of its
    privilege gate, classification rules and tag switch.

    The script talks to an OpenStack cloud through [openstacksdk].  The
    cloud is modelled as a record of the collections the script reads
    (roles, role assignments, the current project, networks, routers,
    floating IPs, servers, ports, server interfaces); the only field the
    script can change is the tag set of the current project.  Every
    function of the script is a computation in a small state-and-exception
    monad over a [World]: the cloud, what was printed, and the sequence of
    SDK calls that were made.  Transport and authentication failures of the
    SDK are outside the model. *)

From Stdlib Require Import Ascii String.
From stdpp Require Import base option list strings gmap.

Local Open Scope string_scope.

(** ** Constants of the script *)

Definition NAME_MIDONET : string := "legacy".
Definition NAME_OVN : string := "modern".
Definition CACHE_TIMEOUT : string := "2 minutes".
Definition TAG_LEGACY : string := "legacy-networking".

(** ** Python values *)

(** Exceptions the script raises itself, or lets through from the SDK and
    from [argparse]. *)
Inductive exn :=
| TypeError (msg : string)
| ValueError (msg : string)
| IndexError (msg : string)
| AttributeError (msg : string)
| NotImplementedError
| ForbiddenException
| NotFoundException
| SystemExit (code : nat).

(** [str.capitalize] on ASCII text: first character upper case, the rest
    lower case. *)
Definition upper_ascii (c : ascii) : ascii :=
  let n := nat_of_ascii c in
  if (97 <=? n)%nat && (n <=? 122)%nat then ascii_of_nat (n - 32) else c.

Definition lower_ascii (c : ascii) : ascii :=
  let n := nat_of_ascii c in
  if (65 <=? n)%nat && (n <=? 90)%nat then ascii_of_nat (n + 32) else c.

Fixpoint lower (s : string) : string :=
  match s with
  | EmptyString => EmptyString
  | String c s' => String (lower_ascii c) (lower s')
  end.

Definition capitalize (s : string) : string :=
  match s with
  | EmptyString => EmptyString
  | String c s' => String (upper_ascii c) (lower s')
  end.

(** [' '.join(parts)] *)
Fixpoint join (sep : string) (parts : list string) : string :=
  match parts with
  | [] => ""
  | [p] => p
  | p :: ps => p +:+ sep +:+ join sep ps
  end.

(** ** Cloud resources *)

Record Role := { role_id : string; role_name : string }.

Record RoleAssignment := {
  ra_user : string;
  ra_project : string;
  ra_role : string
}.

Record Project := {
  project_id : string;
  project_name : string;
  project_tags : gset string
}.

Record Network := {
  network_id : string;
  network_name : string;
  provider_network_type : option string;
  is_router_external : bool;
  network_tags : list string;
  network_project_id : string
}.

(** [external_gateway_info] is a dict; the script reads its ['network_id']. *)
Record GatewayInfo := { gw_network_id : string }.

Record Router := {
  router_id : string;
  router_name : string;
  external_gateway_info : option GatewayInfo
}.

Record FloatingIP := {
  fip_id : string;
  fip_name : string;
  floating_network_id : string;
  port_id : option string
}.

Record Server := { server_id : string; server_name : string }.

Record Port := {
  port_ident : string;
  device_id : string;
  device_owner : string
}.

Record ServerInterface := { si_server_id : string; net_id : string }.

(** An [openstack.resource.Resource].  The class of a resource fixes its
    [resource_key]; [ROther] stands for every other Resource subclass
    (ports, subnets, ...) and carries the key of its class. *)
Inductive Resource :=
| RNetwork (n : Network)
| RRouter (r : Router)
| RFloatingIP (f : FloatingIP)
| RServer (s : Server)
| ROther (key ident name : string).

Definition resource_key (o : Resource) : string :=
  match o with
  | RNetwork _ => "network"
  | RRouter _ => "router"
  | RFloatingIP _ => "floatingip"
  | RServer _ => "server"
  | ROther key _ _ => key
  end.

Definition resource_id (o : Resource) : string :=
  match o with
  | RNetwork n => network_id n
  | RRouter r => router_id r
  | RFloatingIP f => fip_id f
  | RServer s => server_id s
  | ROther _ i _ => i
  end.

Definition resource_name (o : Resource) : string :=
  match o with
  | RNetwork n => network_name n
  | RRouter r => router_name r
  | RFloatingIP f => fip_name f
  | RServer s => server_name s
  | ROther _ _ n => n
  end.

(** An arbitrary Python value handed to the classification layer: a
    Resource, or anything else, of which only [type(obj)] is observed. *)
Inductive pyobj :=
| PyResource (o : Resource)
| PyOther (type_repr : string).

(** ** The cloud *)

Record Cloud := {
  current_user_id : string;
  role_lookup_forbidden : bool;
  roles : list Role;
  role_assignments : list RoleAssignment;
  project : Project;
  networks_of : list Network;
  routers_of : list Router;
  ips_of : list FloatingIP;
  servers_of : list Server;
  ports_of : list Port;
  interfaces_of : list ServerInterface
}.

Definition current_project_id (c : Cloud) : string := project_id (project c).

Definition with_tags (c : Cloud) (tags : gset string) : Cloud :=
  {| current_user_id := current_user_id c;
     role_lookup_forbidden := role_lookup_forbidden c;
     roles := roles c;
     role_assignments := role_assignments c;
     project := {| project_id := project_id (project c);
                   project_name := project_name (project c);
                   project_tags := tags |};
     networks_of := networks_of c;
     routers_of := routers_of c;
     ips_of := ips_of c;
     servers_of := servers_of c;
     ports_of := ports_of c;
     interfaces_of := interfaces_of c |}.

(** Keyword arguments of [conn.network.networks(...)]. *)
Record NetworkQuery := {
  q_is_router_external : option bool;
  q_tags : option string;
  q_project_id : option string
}.

Definition opt_matches {A} (eqb : A → A → bool) (q : option A) (a : A) : bool :=
  match q with
  | None => true
  | Some x => eqb x a
  end.

Definition network_matches (q : NetworkQuery) (n : Network) : bool :=
  opt_matches Bool.eqb (q_is_router_external q) (is_router_external n)
  && match q_tags q with
     | None => true
     | Some t => existsb (String.eqb t) (network_tags n)
     end
  && opt_matches String.eqb (q_project_id q) (network_project_id n).

(** ** Observable behaviour *)

(** What the script writes to standard output: a line of text, or a
    rendered [PrettyTable] (kept as its header and rows). *)
Inductive Output :=
| Line (s : string)
| Table (header : list string) (rows : list (list string)).

(** The calls the script makes: requests to the cloud, and the entry into
    the gate and into the two commands. *)
Inductive event :=
| Call (fn : string)
| GetRole (name : string)
| ListRoleAssignments (user proj role : string)
| GetProject (ident : string)
| ListNetworks (q : NetworkQuery)
| GetNetwork (ident : string)
| ListPorts (dev owner : string)
| ListRouters
| ListIps
| ListServers
| ListServerInterfaces (server : string)
| AddTag (tag : string)
| RemoveTag (tag : string).

Definition is_call (e : event) : bool :=
  match e with Call _ => true | _ => false end.

Definition is_mutation (e : event) : bool :=
  match e with AddTag _ | RemoveTag _ => true | _ => false end.

(** A request to the cloud, read or write. *)
Definition is_request (e : event) : bool := negb (is_call e).

Record World := {
  cloud : Cloud;
  stdout : list Output;
  trace : list event
}.

(** ** The monad of the script *)

Definition M (A : Type) : Type := World → (exn + A) * World.

Definition ret {A} (a : A) : M A := λ w, (inr a, w).

Definition bind {A B} (m : M A) (k : A → M B) : M B :=
  λ w, match m w with
       | (inr a, w') => k a w'
       | (inl e, w') => (inl e, w')
       end.

Definition raise {A} (e : exn) : M A := λ w, (inl e, w).

(** [try: m  except <handled>: h] *)
Definition try_except {A} (m : M A) (handled : exn → bool) (h : M A) : M A :=
  λ w, match m w with
       | (inl e, w') => if handled e then h w' else (inl e, w')
       | r => r
       end.

Declare Scope py_scope.
Delimit Scope py_scope with py.
Notation "x <- m ;; k" := (bind m (λ x, k))
  (at level 100, m at next level, right associativity) : py_scope.
Notation "m ;;; k" := (bind m (λ _, k))
  (at level 100, right associativity) : py_scope.
Local Open Scope py_scope.

Definition print (s : string) : M unit :=
  λ w, (inr (), {| cloud := cloud w; stdout := stdout w ++ [Line s]; trace := trace w |}).

Definition print_table (header : list string) (rows : list (list string)) : M unit :=
  λ w, (inr (), {| cloud := cloud w; stdout := stdout w ++ [Table header rows];
                   trace := trace w |}).

Definition log (e : event) : M unit :=
  λ w, (inr (), {| cloud := cloud w; stdout := stdout w; trace := trace w ++ [e] |}).

Definition get_cloud : M Cloud := λ w, (inr (cloud w), w).

Definition put_tags (tags : gset string) : M unit :=
  λ w, (inr (), {| cloud := with_tags (cloud w) tags; stdout := stdout w;
                   trace := trace w |}).

(** A list comprehension [[f(x) for x in l]] with an effectful [f]. *)
Fixpoint traverse {A B} (f : A → M B) (l : list A) : M (list B) :=
  match l with
  | [] => ret []
  | x :: xs => y <- f x ;; ys <- traverse f xs ;; ret (y :: ys)
  end.

(** Running a computation: its result and the world it leaves. *)
Definition result {A} (m : M A) (w : World) : exn + A := (m w).1.
Definition after {A} (m : M A) (w : World) : World := (m w).2.

(** ** Python containers returned by the SDK

    The list methods of the SDK proxies ([conn.network.networks],
    [conn.network.ports], ...) return generators: the request is made when
    the generator is consumed, [list(g)] collects it, and [g[i]] is a
    [TypeError].  A generator is modelled by the computation that consumes
    it. *)

Definition generator (A : Type) : Type := M (list A).

Definition py_list {A} (g : generator A) : M (list A) := g.

Definition iter_list {A} (l : list A) : generator A := ret l.

Definition getitem_list {A} (l : list A) (i : nat) : M A :=
  match l !! i with
  | Some a => ret a
  | None => raise (IndexError "list index out of range")
  end.

Definition getitem_generator {A} (g : generator A) (i : nat) : M A :=
  raise (TypeError "'generator' object is not subscriptable").

(** ** The SDK calls the script makes *)

(** What the cloud answers, as functions of its contents. *)

Definition find_role (name_or_id : string) (c : Cloud) : option Role :=
  find (λ r, String.eqb (role_id r) name_or_id
             || String.eqb (role_name r) name_or_id) (roles c).

Definition select_role_assignments (user proj role : string) (c : Cloud)
  : list RoleAssignment :=
  List.filter (λ a, String.eqb (ra_user a) user
                    && String.eqb (ra_project a) proj
                    && String.eqb (ra_role a) role)
              (role_assignments c).

Definition select_networks (q : NetworkQuery) (c : Cloud) : list Network :=
  List.filter (network_matches q) (networks_of c).

Definition lookup_network (ident : string) (c : Cloud) : option Network :=
  find (λ n, String.eqb (network_id n) ident) (networks_of c).

Definition select_ports (dev owner : string) (c : Cloud) : list Port :=
  List.filter (λ p, String.eqb (device_id p) dev
                    && String.eqb (device_owner p) owner) (ports_of c).

Definition select_interfaces (s : Server) (c : Cloud) : list ServerInterface :=
  List.filter (λ i, String.eqb (si_server_id i) (server_id s)) (interfaces_of c).

Module conn.

(** [conn.get_role(name_or_id)]: [None] when there is no such role;
    the lookup is refused when policy forbids listing roles. *)
Definition get_role (name_or_id : string) : M (option Role) :=
  log (GetRole name_or_id) ;;;
  c <- get_cloud ;;
  if role_lookup_forbidden c then raise ForbiddenException
  else ret (find_role name_or_id c).

Definition list_role_assignments (user proj role : string)
  : M (list RoleAssignment) :=
  log (ListRoleAssignments user proj role) ;;;
  c <- get_cloud ;;
  ret (select_role_assignments user proj role c).

(** [conn.identity.get_project(conn.current_project_id)] *)
Definition get_project : M Project :=
  c <- get_cloud ;;
  log (GetProject (current_project_id c)) ;;;
  ret (project c).

Definition networks (q : NetworkQuery) : generator Network :=
  log (ListNetworks q) ;;;
  c <- get_cloud ;;
  ret (select_networks q c).

(** [conn.network.get_network(id)] raises when the network is missing. *)
Definition get_network (ident : string) : M Network :=
  log (GetNetwork ident) ;;;
  c <- get_cloud ;;
  match lookup_network ident c with
  | Some n => ret n
  | None => raise NotFoundException
  end.

Definition ports (dev owner : string) : generator Port :=
  log (ListPorts dev owner) ;;;
  c <- get_cloud ;;
  ret (select_ports dev owner c).

Definition routers : generator Router :=
  log ListRouters ;;; c <- get_cloud ;; ret (routers_of c).

Definition ips : generator FloatingIP :=
  log ListIps ;;; c <- get_cloud ;; ret (ips_of c).

Definition servers : generator Server :=
  log ListServers ;;; c <- get_cloud ;; ret (servers_of c).

Definition server_interfaces (s : Server) : generator ServerInterface :=
  log (ListServerInterfaces (server_id s)) ;;;
  c <- get_cloud ;;
  ret (select_interfaces s c).

(** [project.add_tag(session, tag)] and [project.remove_tag(session, tag)]
    write the tag set of the project on the server. *)
Definition add_tag (tag : string) : M unit :=
  log (AddTag tag) ;;;
  c <- get_cloud ;;
  put_tags (project_tags (project c) ∪ {[tag]}).

Definition remove_tag (tag : string) : M unit :=
  log (RemoveTag tag) ;;;
  c <- get_cloud ;;
  put_tags (project_tags (project c) ∖ {[tag]}).

End conn.

(** ** Privilege and consistency checks *)

Definition is_forbidden (e : exn) : bool :=
  match e with ForbiddenException => true | _ => false end.

Definition is_tenant_manager : M bool :=
  r <- try_except (r <- conn.get_role "TenantManager" ;; ret (inr r))
                  is_forbidden (ret (inl false)) ;;
  match r with
  | inl early => ret early
  | inr None => ret false
  | inr (Some r) =>
      c <- get_cloud ;;
      ra <- conn.list_role_assignments (current_user_id c) (current_project_id c)
                                       (role_id r) ;;
      ret (negb (bool_decide (ra = [])))
  end.

Definition is_legacy_project : M bool :=
  p <- conn.get_project ;;
  ret (bool_decide (TAG_LEGACY ∈ project_tags p)).

(** The argument of [is_legacy_network]: an object, or an identifier. *)
Inductive network_or_id :=
| ByObject (o : Resource)
| ById (ident : string).

Definition is_midonet (n : Network) : bool :=
  bool_decide (provider_network_type n = Some "midonet").

(** An object that is not a [Network] is handed to [get_network] as if it
    were an identifier; no network answers to it. *)
Definition is_legacy_network (x : network_or_id) : M bool :=
  network <- match x with
             | ByObject (RNetwork n) => ret n
             | ByObject _ => raise NotFoundException
             | ById i => conn.get_network i
             end ;;
  ret (is_midonet network).

Definition MSG_NO_PRIVILEGE_CHECK : string :=
  "You do not have sufficient privileges to migrate the project. "
  +:+ "You need the 'TenantManager' role on this project".

Definition MSG_RECENTLY_SWITCHED : string :=
  "Project networking may have been recently switched. "
  +:+ "Please wait for " +:+ CACHE_TIMEOUT +:+ " and try again.".

Definition floating_query : NetworkQuery :=
  {| q_is_router_external := Some true;
     q_tags := Some "nectar:floating";
     q_project_id := None |}.

Definition check_sanity : M bool :=
  log (Call "check_sanity") ;;;
  tm <- is_tenant_manager ;;
  if negb tm then
    print MSG_NO_PRIVILEGE_CHECK ;;; ret false
  else
    nets <- py_list (conn.networks floating_query) ;;
    network <- getitem_list nets 0 ;;
    a <- is_legacy_network (ByObject (RNetwork network)) ;;
    b <- is_legacy_project ;;
    if negb (Bool.eqb a b) then
      print MSG_RECENTLY_SWITCHED ;;; ret false
    else ret true.

Definition external_query : NetworkQuery :=
  {| q_is_router_external := Some true; q_tags := None; q_project_id := None |}.

Definition check_sync : M bool :=
  external_network <- getitem_generator (conn.networks external_query) 0 ;;
  a <- is_legacy_network (ByObject (RNetwork external_network)) ;;
  b <- is_legacy_project ;;
  ret (Bool.eqb a b).

(** ** Classification rules *)

Record PrettyResource := {
  obj : Resource;
  type : string;
  id : string;
  name : string;
  recommendation : option string
}.

Definition header : list string := ["Type"; "ID"; "Name"; "Recommendation"].

(** [TypeError(f"Expected openstack.resource.Resource, got {type(obj)}")] *)
Definition type_error (type_repr : string) : exn :=
  TypeError ("Expected openstack.resource.Resource, got " +:+ type_repr).

(** [PrettyResource.__init__], with the subclass's [_get_recommendation]. *)
Definition PrettyResource_init (_get_recommendation : Resource → M (option string))
    (o : pyobj) : M PrettyResource :=
  match o with
  | PyOther t => raise (type_error t)
  | PyResource r =>
      rec <- _get_recommendation r ;;
      ret {| obj := r;
             type := capitalize (resource_key r);
             id := resource_id r;
             name := resource_name r;
             recommendation := rec |}
  end.

(** The base class implements no rule. *)
Definition PrettyResource_get_recommendation (o : Resource) : M (option string) :=
  raise NotImplementedError.

(** [self.recommendation or ''] *)
Definition or_empty (r : option string) : string :=
  match r with
  | Some s => s
  | None => ""
  end.

Definition prettyrow (p : PrettyResource) : list string :=
  [type p; id p; name p; or_empty (recommendation p)].

(** Truth value of [r.recommendation]: [None] and [''] are false. *)
Definition truthy (r : option string) : bool :=
  match r with
  | Some s => negb (String.eqb s "")
  | None => false
  end.

(** Attribute reads on [self.obj]; a class without the attribute raises. *)
Definition attr_floating_ip (o : Resource) : M FloatingIP :=
  match o with
  | RFloatingIP f => ret f
  | _ => raise (AttributeError "floating_network_id")
  end.

Definition attr_external_gateway_info (o : Resource) : M (option GatewayInfo) :=
  match o with
  | RRouter r => ret (external_gateway_info r)
  | _ => raise (AttributeError "external_gateway_info")
  end.

Definition PrettyFIP_get_recommendation (o : Resource) : M (option string) :=
  f <- attr_floating_ip o ;;
  legacy <- is_legacy_network (ById (floating_network_id f)) ;;
  if legacy then
    match port_id f with
    | None => ret (Some "Unused, Delete")
    | Some _ => ret (Some "Replace")
    end
  else ret None.

Definition PrettyNetwork_get_recommendation (o : Resource) : M (option string) :=
  legacy <- is_legacy_network (ByObject o) ;;
  if legacy then ret (Some "Replace") else ret None.

Definition PrettyRouter_get_recommendation (o : Resource) : M (option string) :=
  interfaces <- py_list (conn.ports (resource_id o) "network:router_interface") ;;
  if (List.length interfaces =? 0)%nat then ret (Some "No networks attached, Delete")
  else
    egi <- attr_external_gateway_info o ;;
    match egi with
    | None => ret None
    | Some g =>
        legacy <- is_legacy_network (ById (gw_network_id g)) ;;
        if legacy then ret (Some "Replace") else ret None
    end.

(** The loop of [PrettyServer._get_recommendation]: the names of the legacy
    networks among the interfaces, in order. *)
Fixpoint legacy_networks_loop (interfaces : list ServerInterface)
    (legacy_networks : list string) : M (list string) :=
  match interfaces with
  | [] => ret legacy_networks
  | interface :: rest =>
      network <- conn.get_network (net_id interface) ;;
      legacy <- is_legacy_network (ByObject (RNetwork network)) ;;
      legacy_networks_loop rest
        (if legacy then legacy_networks ++ [network_name network]
         else legacy_networks)
  end.

Definition PrettyServer_get_recommendation (o : Resource) : M (option string) :=
  interfaces <- match o with
                | RServer s => py_list (conn.server_interfaces s)
                | _ => raise NotFoundException
                end ;;
  legacy_networks <- legacy_networks_loop interfaces [] ;;
  match legacy_networks with
  | [] => ret None
  | _ => ret (Some ("Switch to " +:+ NAME_OVN +:+ " network"))
  end.

Definition PrettyFIP := PrettyResource_init PrettyFIP_get_recommendation.
Definition PrettyNetwork := PrettyResource_init PrettyNetwork_get_recommendation.
Definition PrettyRouter := PrettyResource_init PrettyRouter_get_recommendation.
Definition PrettyServer := PrettyResource_init PrettyServer_get_recommendation.

Definition _query_map : gmap string string :=
  <["floatingip" := "PrettyFIP"]>
  (<["network" := "PrettyNetwork"]>
  (<["router" := "PrettyRouter"]>
  (<["server" := "PrettyServer"]> ∅))).

(** [globals()[name]] for the class names of [_query_map]. *)
Definition globals (name : string) : option (pyobj → M PrettyResource) :=
  if String.eqb name "PrettyFIP" then Some PrettyFIP
  else if String.eqb name "PrettyNetwork" then Some PrettyNetwork
  else if String.eqb name "PrettyRouter" then Some PrettyRouter
  else if String.eqb name "PrettyServer" then Some PrettyServer
  else None.

Definition _resource_to_prettyresource (o : pyobj) : M PrettyResource :=
  match o with
  | PyOther t => raise (type_error t)
  | PyResource r =>
      match _query_map !! resource_key r with
      | None => raise (ValueError ("Unknown resource type " +:+ resource_key r))
      | Some cls =>
          match globals cls with
          | Some class => class o
          | None => raise (AttributeError cls)
          end
      end
  end.

Definition _resources_to_prettyrows (resources : generator pyobj)
    (all_resources : bool) : M (list (list string)) :=
  items <- resources ;;
  resources <- traverse _resource_to_prettyresource items ;;
  let resources :=
    if negb all_resources
    then List.filter (λ r, truthy (recommendation r)) resources
    else resources in
  ret (map prettyrow resources).

(** An SDK generator of typed resources, seen as a generator of objects. *)
Definition as_objects {A} (inj : A → Resource) (g : generator A) : generator pyobj :=
  l <- g ;; ret (map (λ a, PyResource (inj a)) l).

(** ** Command line *)

(** The namespace built by [parse_args]: [command] is [check] with
    [all_resources], or [switch] with [networking]. *)
Inductive Namespace :=
| CheckArgs (all_resources : bool)
| SwitchArgs (networking : string).

Definition args_all_resources (args : Namespace) : M bool :=
  match args with
  | CheckArgs b => ret b
  | SwitchArgs _ => raise (AttributeError "all_resources")
  end.

Definition args_networking (args : Namespace) : M string :=
  match args with
  | SwitchArgs n => ret n
  | CheckArgs _ => raise (AttributeError "networking")
  end.

Definition mem (s : string) (l : list string) : bool := existsb (String.eqb s) l.

(** The command lines accepted by the parser that [main] builds: a
    required sub-command, [check] with its optional flag, [switch] with one
    positional restricted to [choices].  Everything else makes [argparse]
    exit with status 2.  Option abbreviations and [--help] are left out. *)
Definition parse_args (argv : list string) : M Namespace :=
  match argv with
  | [] => raise (SystemExit 2)
  | sub :: rest =>
      if String.eqb sub "check" then
        if forallb (λ f, mem f ["--all-resources"; "--all"]) rest
        then ret (CheckArgs (negb (bool_decide (rest = []))))
        else raise (SystemExit 2)
      else if String.eqb sub "switch" then
        match rest with
        | [networking] =>
            if mem networking [NAME_MIDONET; NAME_OVN]
            then ret (SwitchArgs networking)
            else raise (SystemExit 2)
        | _ => raise (SystemExit 2)
        end
      else raise (SystemExit 2)
  end.

(** ** Resource reporter *)

Definition project_query (c : Cloud) : NetworkQuery :=
  {| q_is_router_external := Some false;
     q_tags := None;
     q_project_id := Some (current_project_id c) |}.

Definition MSG_CONGRATULATIONS : string :=
  "Congratulations! Your project is already using " +:+ NAME_OVN +:+ " "
  +:+ "networking. No resources needs to be migrated.".

Definition check (args : Namespace) : M unit :=
  log (Call "check") ;;;
  all_resources <- args_all_resources args ;;
  p <- conn.get_project ;;
  let project_name := project_name p in
  print ("Project: " +:+ project_name) ;;;
  legacy <- is_legacy_project ;;
  print ("Networking: " +:+ (if legacy then NAME_MIDONET else NAME_OVN)) ;;;
  print "Checking resources. This might take a while..." ;;;
  c <- get_cloud ;;
  rows1 <- _resources_to_prettyrows
             (as_objects RNetwork (conn.networks (project_query c))) all_resources ;;
  rows2 <- _resources_to_prettyrows (as_objects RRouter conn.routers) all_resources ;;
  rows3 <- _resources_to_prettyrows (as_objects RFloatingIP conn.ips) all_resources ;;
  rows4 <- _resources_to_prettyrows (as_objects RServer conn.servers) all_resources ;;
  let rows := (rows1 ++ rows2 ++ rows3 ++ rows4)%list in
  let rowcount := List.length rows in
  legacy <- is_legacy_project ;;
  output <- (if negb legacy && (rowcount =? 0)%nat then ret MSG_CONGRATULATIONS
             else
               legacy <- is_legacy_project ;;
               let output :=
                 ([if legacy
                  then "Project " +:+ project_name +:+ " needs to switch to "
                       +:+ NAME_OVN +:+ " networking."
                  else "Project " +:+ project_name +:+ " is already using "
                       +:+ NAME_OVN +:+ " networking."]
                 ++ (if (rowcount =? 0)%nat then []
                     else ["The following resources needs to be migrated:"]))%list in
               ret (join " " output)) ;;
  print output ;;;
  if (rowcount =? 0)%nat then ret () else print_table header rows.

(** ** Mode switcher *)

Definition MSG_NO_PRIVILEGE_SWITCH : string :=
  "You do not have sufficient privileges to switch this project. "
  +:+ "You need the 'TenantManager' role on this project".

Definition MSG_ALREADY (mode : string) : string :=
  "Project is already set to " +:+ mode +:+ " networking".

Definition MSG_SET (mode : string) : string :=
  "Project set to " +:+ mode +:+ " networking.".

Definition switch (args : Namespace) : M unit :=
  log (Call "switch") ;;;
  print "Switching project networking" ;;;
  networking <- args_networking args ;;
  tm <- is_tenant_manager ;;
  if negb tm then print MSG_NO_PRIVILEGE_SWITCH
  else
    project <- conn.get_project ;;
    if String.eqb networking NAME_MIDONET then
      legacy <- is_legacy_project ;;
      if legacy then print (MSG_ALREADY NAME_MIDONET)
      else
        conn.add_tag TAG_LEGACY ;;;
        print (MSG_SET NAME_MIDONET) ;;;
        print ("Please wait " +:+ CACHE_TIMEOUT +:+ " for changes to propagate to "
               +:+ "all service.")
    else if String.eqb networking NAME_OVN then
      legacy <- is_legacy_project ;;
      if negb legacy then print (MSG_ALREADY NAME_OVN)
      else
        conn.remove_tag TAG_LEGACY ;;;
        print (MSG_SET NAME_OVN) ;;;
        print ("Please wait " +:+ CACHE_TIMEOUT +:+ " for changes to propagate to "
               +:+ "all services.")
    else ret ().

(** ** Command dispatcher *)

(** [args.command(args)] *)
Definition command (args : Namespace) : M unit :=
  match args with
  | CheckArgs _ => check args
  | SwitchArgs _ => switch args
  end.

Definition main (argv : list string) : M unit :=
  args <- parse_args argv ;;
  ok <- check_sanity ;;
  if negb ok then ret () else command args.

(** ** Sample clouds *)

(** The world at the start of a run: nothing printed, no call made. *)
Definition fresh (c : Cloud) : World :=
  {| cloud := c; stdout := []; trace := [] |}.

Module Samples.

Definition floating (ident : string) (pnt : string) : Network :=
  {| network_id := ident; network_name := "floating-" +:+ ident;
     provider_network_type := Some pnt; is_router_external := true;
     network_tags := ["nectar:floating"]; network_project_id := "admin" |}.

Definition private (ident : string) (pnt : string) : Network :=
  {| network_id := ident; network_name := "private-" +:+ ident;
     provider_network_type := Some pnt; is_router_external := false;
     network_tags := []; network_project_id := "p1" |}.

Definition rt_old : Router :=
  {| router_id := "rt1"; router_name := "old";
     external_gateway_info := Some {| gw_network_id := "ext-mido" |} |}.
Definition rt_idle : Router :=
  {| router_id := "rt2"; router_name := "idle"; external_gateway_info := None |}.
Definition rt_new : Router :=
  {| router_id := "rt3"; router_name := "new";
     external_gateway_info := Some {| gw_network_id := "ext-ovn" |} |}.
Definition rt_inner : Router :=
  {| router_id := "rt4"; router_name := "inner"; external_gateway_info := None |}.

Definition fip_unused : FloatingIP :=
  {| fip_id := "f1"; fip_name := "203.0.113.7";
     floating_network_id := "ext-mido"; port_id := None |}.
Definition fip_bound : FloatingIP :=
  {| fip_id := "f2"; fip_name := "203.0.113.8";
     floating_network_id := "ext-mido"; port_id := Some "pt9" |}.
Definition fip_modern : FloatingIP :=
  {| fip_id := "f3"; fip_name := "198.51.100.3";
     floating_network_id := "ext-ovn"; port_id := None |}.

Definition router_port (ident dev : string) : Port :=
  {| port_ident := ident; device_id := dev;
     device_owner := "network:router_interface" |}.

(** A project on modern networking whose manager is user [u1]; it still
    owns legacy and modern resources of every kind. *)
Definition modern_cloud : Cloud :=
  {| current_user_id := "u1";
     role_lookup_forbidden := false;
     roles := [{| role_id := "r-member"; role_name := "Member" |};
               {| role_id := "r-tm"; role_name := "TenantManager" |}];
     role_assignments := [{| ra_user := "u1"; ra_project := "p1"; ra_role := "r-tm" |}];
     project := {| project_id := "p1"; project_name := "demo";
                   project_tags := {["allocation"]} |};
     networks_of := [floating "ext-ovn" "geneve"; floating "ext-mido" "midonet";
                     private "n1" "midonet"; private "n2" "geneve"];
     routers_of := [rt_old; rt_idle; rt_new; rt_inner];
     ips_of := [fip_unused; fip_bound; fip_modern];
     servers_of := [{| server_id := "s1"; server_name := "web" |}];
     ports_of := [router_port "pt1" "rt1"; router_port "pt3" "rt3";
                  router_port "pt4" "rt4";
                  {| port_ident := "pt9"; device_id := "s1";
                     device_owner := "compute:nova" |}];
     interfaces_of := [{| si_server_id := "s1"; net_id := "n2" |}] |}.

(** The same cloud seen by a user without the role. *)
Definition unprivileged_cloud : Cloud :=
  {| current_user_id := "u2";
     role_lookup_forbidden := role_lookup_forbidden modern_cloud;
     roles := roles modern_cloud;
     role_assignments := role_assignments modern_cloud;
     project := project modern_cloud;
     networks_of := networks_of modern_cloud;
     routers_of := routers_of modern_cloud;
     ips_of := ips_of modern_cloud;
     servers_of := servers_of modern_cloud;
     ports_of := ports_of modern_cloud;
     interfaces_of := interfaces_of modern_cloud |}.

Definition legacy_cloud : Cloud :=
  with_tags modern_cloud ({["allocation"]} ∪ {[TAG_LEGACY]}).

End Samples.

(** * Properties *)

(** ** Worlds *)

(** [w] with more events in its trace. *)
Definition add_events (w : World) (evs : list event) : World :=
  {| cloud := cloud w; stdout := stdout w; trace := (trace w ++ evs)%list |}.

(** [w] with more lines on its output. *)
Definition add_output (w : World) (out : list Output) : World :=
  {| cloud := cloud w; stdout := (stdout w ++ out)%list; trace := trace w |}.

(** ** Step invariants

    A relation between the world before and after a computation that is
    reflexive and transitive is kept by [ret], [raise], sequencing,
    [try]/[except] and comprehensions as soon as the pieces keep it. *)

Section Respects.
Variable R : World → World → Prop.
Hypothesis R_refl : ∀ w, R w w.
Hypothesis R_trans : ∀ w1 w2 w3, R w1 w2 → R w2 w3 → R w1 w3.

Definition respects {A} (m : M A) : Prop := ∀ w, R w (after m w).

Lemma respects_ret {A} (a : A) : respects (ret a).
Proof. intros w. apply R_refl. Qed.

Lemma respects_raise {A} (e : exn) : respects (@raise A e).
Proof. intros w. apply R_refl. Qed.

Lemma respects_get_cloud : respects get_cloud.
Proof. intros w. apply R_refl. Qed.

Lemma respects_bind {A B} (m : M A) (k : A → M B) :
  respects m → (∀ a, respects (k a)) → respects (bind m k).
Proof.
  intros Hm Hk w. specialize (Hm w). unfold after, bind in *.
  destruct (m w) as [[e|a] w1]; simpl in *; [done|].
  eapply R_trans; [exact Hm|apply Hk].
Qed.

Lemma respects_try_except {A} (m h : M A) handled :
  respects m → respects h → respects (try_except m handled h).
Proof.
  intros Hm Hh w. specialize (Hm w). unfold after, try_except in *.
  destruct (m w) as [[e|a] w1]; simpl in *; [|done].
  destruct (handled e); simpl; [|done].
  eapply R_trans; [exact Hm|apply Hh].
Qed.

Lemma respects_traverse {A B} (f : A → M B) (l : list A) :
  (∀ a, respects (f a)) → respects (traverse f l).
Proof.
  intros Hf. induction l as [|x xs IH]; simpl.
  - apply respects_ret.
  - apply respects_bind; [apply Hf|]. intros y.
    apply respects_bind; [apply IH|]. intros ys. apply respects_ret.
Qed.

Lemma respects_getitem_list {A} (l : list A) i : respects (getitem_list l i).
Proof.
  unfold getitem_list. destruct (l !! i); [apply respects_ret|apply respects_raise].
Qed.
End Respects.

(** The computation only appends events that satisfy [P]; whether it
    returns or raises. *)
Definition appends (P : event → Prop) (w w' : World) : Prop :=
  ∃ evs, trace w' = (trace w ++ evs)%list ∧ Forall P evs.

(** Moreover the cloud is left as it was. *)
Definition observes (P : event → Prop) (w w' : World) : Prop :=
  cloud w' = cloud w ∧ appends P w w'.

Definition emits (P : event → Prop) {A} (m : M A) : Prop := respects (appends P) m.
Definition reads (P : event → Prop) {A} (m : M A) : Prop := respects (observes P) m.

Lemma appends_refl P w : appends P w w.
Proof. exists []. by rewrite app_nil_r. Qed.

Lemma appends_trans P w1 w2 w3 : appends P w1 w2 → appends P w2 w3 → appends P w1 w3.
Proof.
  intros (e1 & H1 & F1) (e2 & H2 & F2). exists (e1 ++ e2)%list. split.
  - by rewrite H2, H1, app_assoc.
  - by apply Forall_app.
Qed.

Lemma observes_refl P w : observes P w w.
Proof. split; [done|apply appends_refl]. Qed.

Lemma observes_trans P w1 w2 w3 :
  observes P w1 w2 → observes P w2 w3 → observes P w1 w3.
Proof.
  intros [C1 A1] [C2 A2]. split; [congruence|by eapply appends_trans].
Qed.

Lemma reads_emits P {A} (m : M A) : reads P m → emits P m.
Proof. intros H w. apply H. Qed.

Lemma reads_log (P : event → Prop) e : P e → reads P (log e).
Proof.
  intros He w. split; [done|]. exists [e]. split; [done|]. by constructor.
Qed.

Lemma reads_print P s : reads P (print s).
Proof. intros w. split; [done|]. exists []. simpl. by rewrite app_nil_r. Qed.

Lemma reads_print_table P h r : reads P (print_table h r).
Proof. intros w. split; [done|]. exists []. simpl. by rewrite app_nil_r. Qed.

Lemma emits_put_tags P t : emits P (put_tags t).
Proof. intros w. exists []. simpl. by rewrite app_nil_r. Qed.

(** A read request: neither a call marker nor a tag write. *)
Definition is_query (e : event) : bool := negb (is_call e) && negb (is_mutation e).

Section Instances.
Variable P : event → Prop.
Context {A B : Type}.

Lemma reads_ret (a : A) : reads P (ret a).
Proof. apply respects_ret, observes_refl. Qed.

Lemma reads_raise e : reads P (@raise A e).
Proof. apply respects_raise, observes_refl. Qed.

Lemma reads_get_cloud : reads P get_cloud.
Proof. apply respects_get_cloud, observes_refl. Qed.

Lemma reads_getitem_list (l : list A) i : reads P (getitem_list l i).
Proof. apply respects_getitem_list, observes_refl. Qed.

Lemma reads_bind (m : M A) (k : A → M B) :
  reads P m → (∀ a, reads P (k a)) → reads P (bind m k).
Proof. apply respects_bind, observes_trans. Qed.

Lemma reads_try_except (m h : M A) handled :
  reads P m → reads P h → reads P (try_except m handled h).
Proof. apply respects_try_except, observes_trans. Qed.

Lemma reads_traverse (f : A → M B) l : (∀ a, reads P (f a)) → reads P (traverse f l).
Proof. apply respects_traverse; [apply observes_refl|apply observes_trans]. Qed.

Lemma emits_ret (a : A) : emits P (ret a).
Proof. apply respects_ret, appends_refl. Qed.

Lemma emits_raise e : emits P (@raise A e).
Proof. apply respects_raise, appends_refl. Qed.

Lemma emits_bind (m : M A) (k : A → M B) :
  emits P m → (∀ a, emits P (k a)) → emits P (bind m k).
Proof. apply respects_bind, appends_trans. Qed.
End Instances.

(** Steps shared by the proofs that a function keeps a step invariant. *)
Ltac step_reads :=
  repeat first
    [ apply reads_ret
    | apply reads_raise
    | apply reads_get_cloud
    | apply reads_getitem_list
    | apply reads_print
    | apply reads_print_table
    | apply reads_bind; [|intros ?]
    | apply reads_try_except
    | apply reads_log; solve [auto]
    | match goal with
      | |- reads _ (match ?x with _ => _ end) => destruct x
      | |- reads _ (if ?x then _ else _) => destruct x
      end ].

(** ** The script's functions and the step invariants *)

Create HintDb reads.

Section Reads.
Variable P : event → Prop.
Hypothesis P_query : ∀ e, is_query e = true → P e.

Local Hint Extern 1 (P _) => (apply P_query; reflexivity) : core.

Lemma reads_get_role n : reads P (conn.get_role n).
Proof. unfold conn.get_role. step_reads. Qed.

Lemma reads_list_role_assignments u p r : reads P (conn.list_role_assignments u p r).
Proof. unfold conn.list_role_assignments. step_reads. Qed.

Lemma reads_get_project : reads P conn.get_project.
Proof. unfold conn.get_project. step_reads. Qed.

Lemma reads_networks q : reads P (conn.networks q).
Proof. unfold conn.networks. step_reads. Qed.

Lemma reads_get_network i : reads P (conn.get_network i).
Proof. unfold conn.get_network. step_reads. Qed.

Lemma reads_ports d o : reads P (conn.ports d o).
Proof. unfold conn.ports. step_reads. Qed.

Lemma reads_routers : reads P conn.routers.
Proof. unfold conn.routers. step_reads. Qed.

Lemma reads_ips : reads P conn.ips.
Proof. unfold conn.ips. step_reads. Qed.

Lemma reads_servers : reads P conn.servers.
Proof. unfold conn.servers. step_reads. Qed.

Lemma reads_server_interfaces s : reads P (conn.server_interfaces s).
Proof. unfold conn.server_interfaces. step_reads. Qed.

Local Hint Resolve reads_get_role reads_list_role_assignments reads_get_project
  reads_networks reads_get_network reads_ports reads_routers reads_ips
  reads_servers reads_server_interfaces : reads.

Ltac reads_tac := repeat first [progress step_reads | progress eauto with reads].

Lemma reads_is_tenant_manager : reads P is_tenant_manager.
Proof. unfold is_tenant_manager. reads_tac. Qed.

Lemma reads_is_legacy_project : reads P is_legacy_project.
Proof. unfold is_legacy_project. reads_tac. Qed.

Lemma reads_is_legacy_network x : reads P (is_legacy_network x).
Proof. unfold is_legacy_network. reads_tac. Qed.

Local Hint Resolve reads_is_tenant_manager reads_is_legacy_project
  reads_is_legacy_network : reads.

Lemma reads_check_sanity : P (Call "check_sanity") → reads P check_sanity.
Proof. intros HP. unfold check_sanity, py_list. reads_tac. Qed.

Lemma reads_PrettyFIP_rule o : reads P (PrettyFIP_get_recommendation o).
Proof. unfold PrettyFIP_get_recommendation, attr_floating_ip. reads_tac. Qed.

Lemma reads_PrettyNetwork_rule o : reads P (PrettyNetwork_get_recommendation o).
Proof. unfold PrettyNetwork_get_recommendation. reads_tac. Qed.

Lemma reads_PrettyRouter_rule o : reads P (PrettyRouter_get_recommendation o).
Proof.
  unfold PrettyRouter_get_recommendation, attr_external_gateway_info, py_list.
  reads_tac.
Qed.

Lemma reads_legacy_networks_loop l acc : reads P (legacy_networks_loop l acc).
Proof.
  revert acc. induction l as [|i l IH]; intros acc; simpl; [reads_tac|].
  apply reads_bind; [apply reads_get_network|intros n].
  apply reads_bind; [apply reads_is_legacy_network|intros b]. apply IH.
Qed.

Local Hint Resolve reads_legacy_networks_loop : reads.

Lemma reads_PrettyServer_rule o : reads P (PrettyServer_get_recommendation o).
Proof. unfold PrettyServer_get_recommendation, py_list. reads_tac. Qed.

Lemma reads_PrettyResource_init rule o :
  (∀ r, reads P (rule r)) → reads P (PrettyResource_init rule o).
Proof. intros H. unfold PrettyResource_init. reads_tac. Qed.

Lemma reads_resource_to_prettyresource o : reads P (_resource_to_prettyresource o).
Proof.
  unfold _resource_to_prettyresource.
  destruct o as [r|t]; [|reads_tac].
  destruct (_query_map !! resource_key r) as [cls|]; [|reads_tac].
  unfold globals.
  repeat (match goal with |- context [String.eqb cls ?s] => destruct (String.eqb cls s) end);
    try (apply reads_PrettyResource_init; intros;
         first [apply reads_PrettyFIP_rule | apply reads_PrettyNetwork_rule
               | apply reads_PrettyRouter_rule | apply reads_PrettyServer_rule]).
  reads_tac.
Qed.

Lemma reads_resources_to_prettyrows g all :
  reads P g → reads P (_resources_to_prettyrows g all).
Proof.
  intros Hg. unfold _resources_to_prettyrows.
  step_reads; [exact Hg|].
  step_reads.
  apply reads_traverse, reads_resource_to_prettyresource.
Qed.

Lemma reads_as_objects {A} (inj : A → Resource) g :
  reads P g → reads P (as_objects inj g).
Proof. intros Hg. unfold as_objects. step_reads. exact Hg. Qed.

Lemma reads_check args : P (Call "check") → reads P (check args).
Proof.
  intros HP. unfold check, args_all_resources.
  repeat first
    [ apply reads_resources_to_prettyrows; apply reads_as_objects
    | apply reads_bind; [|intros ?]
    | progress eauto with reads
    | progress step_reads ].
Qed.

(** [switch] writes tags, so it only keeps the trace invariant. *)
Lemma emits_switch args :
  P (Call "switch") → P (AddTag TAG_LEGACY) → P (RemoveTag TAG_LEGACY) →
  emits P (switch args).
Proof.
  intros HC HA HR. unfold switch, args_networking, conn.add_tag, conn.remove_tag.
  assert (Hl : ∀ e, P e → emits P (log e)) by (intros; by apply reads_emits, reads_log).
  repeat first
    [ apply reads_emits; first [apply reads_print | apply reads_is_tenant_manager
                               | apply reads_is_legacy_project | apply reads_get_project
                               | apply reads_get_cloud]
    | apply Hl; assumption
    | apply emits_put_tags
    | apply emits_ret
    | apply emits_raise
    | apply emits_bind; [|intros ?]
    | match goal with
      | |- emits _ (match ?x with _ => _ end) => destruct x
      | |- emits _ (if ?x then _ else _) => destruct x
      end ].
Qed.
End Reads.

(** ** Running the SDK calls *)

Lemma get_network_found i n w :
  lookup_network i (cloud w) = Some n →
  conn.get_network i w = (inr n, add_events w [GetNetwork i]).
Proof.
  intros H. unfold conn.get_network, bind, log, get_cloud; simpl. by rewrite H.
Qed.

Lemma get_network_missing i w :
  lookup_network i (cloud w) = None →
  conn.get_network i w = (inl NotFoundException, add_events w [GetNetwork i]).
Proof.
  intros H. unfold conn.get_network, bind, log, get_cloud; simpl. by rewrite H.
Qed.

Lemma is_legacy_network_object n w :
  is_legacy_network (ByObject (RNetwork n)) w = (inr (is_midonet n), w).
Proof. reflexivity. Qed.

Lemma is_legacy_network_id i n w :
  lookup_network i (cloud w) = Some n →
  is_legacy_network (ById i) w = (inr (is_midonet n), add_events w [GetNetwork i]).
Proof.
  intros H. unfold is_legacy_network, bind. by rewrite (get_network_found _ _ _ H).
Qed.

Lemma is_legacy_project_run w :
  is_legacy_project w
  = (inr (bool_decide (TAG_LEGACY ∈ project_tags (project (cloud w)))),
     add_events w [GetProject (current_project_id (cloud w))]).
Proof. reflexivity. Qed.

Lemma is_midonet_true n : is_midonet n = true ↔ provider_network_type n = Some "midonet".
Proof. unfold is_midonet. apply bool_decide_eq_true. Qed.

Lemma is_midonet_false n : is_midonet n = false ↔ provider_network_type n ≠ Some "midonet".
Proof. unfold is_midonet. apply bool_decide_eq_false. Qed.

Lemma query_map_known :
  _query_map !! "floatingip" = Some "PrettyFIP"
  ∧ _query_map !! "network" = Some "PrettyNetwork"
  ∧ _query_map !! "router" = Some "PrettyRouter"
  ∧ _query_map !! "server" = Some "PrettyServer".
Proof. by vm_compute. Qed.

Lemma query_map_unknown key :
  key ≠ "floatingip" → key ≠ "network" → key ≠ "router" → key ≠ "server" →
  _query_map !! key = None.
Proof.
  intros. unfold _query_map.
  rewrite !lookup_insert_ne by done. apply lookup_empty.
Qed.

(** ** C6: is_legacy_network *)

(** What the argument of [is_legacy_network] stands for: the network
    itself, or the network that the identifier is looked up to. *)
Definition resolves_to (x : network_or_id) (c : Cloud) (n : Network) : Prop :=
  match x with
  | ByObject o => o = RNetwork n
  | ById i => lookup_network i c = Some n
  end.

(** C6. For a network passed as an object, or as an identifier that the
    lookup resolves to a network, [is_legacy_network] returns a boolean
    that is true exactly when the provider network type of that network is
    ['midonet']. *)
Theorem is_legacy_network_iff_midonet (x : network_or_id) (n : Network) (w : World) :
  resolves_to x (cloud w) n →
  ∃ b, result (is_legacy_network x) w = inr b
       ∧ (b = true ↔ provider_network_type n = Some "midonet").
Proof.
  intros Hx. exists (is_midonet n). split; [|apply is_midonet_true].
  destruct x as [o|i]; simpl in Hx.
  - subst o. reflexivity.
  - unfold result. by rewrite (is_legacy_network_id _ _ _ Hx).
Qed.

(** C6 on the legacy floating network of the sample cloud, by identifier. *)
Lemma is_legacy_network_iff_midonet_witness :
  resolves_to (ById "ext-mido") (cloud (fresh Samples.modern_cloud))
              (Samples.floating "ext-mido" "midonet")
  ∧ ∃ b, result (is_legacy_network (ById "ext-mido")) (fresh Samples.modern_cloud) = inr b
         ∧ (b = true ↔ provider_network_type (Samples.floating "ext-mido" "midonet")
                        = Some "midonet").
Proof.
  split; [reflexivity|].
  apply (is_legacy_network_iff_midonet (ById "ext-mido")
           (Samples.floating "ext-mido" "midonet") (fresh Samples.modern_cloud)).
  reflexivity.
Defined.

(** ** C4, C5: recommendations for routers and floating IPs *)

(** The recommendation on the row that the classification layer builds
    for a resource. *)
Definition computed_recommendation (o : Resource) (w : World) : exn + option string :=
  match result (_resource_to_prettyresource (PyResource o)) w with
  | inl e => inl e
  | inr p => inr (recommendation p)
  end.

(** The router-interface ports attached to a router. *)
Definition router_interfaces (r : Router) (c : Cloud) : list Port :=
  select_ports (router_id r) "network:router_interface" c.

Lemma computed_recommendation_router r w :
  computed_recommendation (RRouter r) w
  = match result (PrettyRouter_get_recommendation (RRouter r)) w with
    | inl e => inl e
    | inr rec => inr rec
    end.
Proof.
  unfold computed_recommendation, _resource_to_prettyresource, result; simpl.
  destruct query_map_known as (_ & _ & -> & _); simpl.
  unfold PrettyRouter, PrettyResource_init, bind.
  by destruct (PrettyRouter_get_recommendation (RRouter r) w) as [[e|rec] w'].
Qed.

Lemma computed_recommendation_fip f w :
  computed_recommendation (RFloatingIP f) w
  = match result (PrettyFIP_get_recommendation (RFloatingIP f)) w with
    | inl e => inl e
    | inr rec => inr rec
    end.
Proof.
  unfold computed_recommendation, _resource_to_prettyresource, result; simpl.
  destruct query_map_known as (-> & _); simpl.
  unfold PrettyFIP, PrettyResource_init, bind.
  by destruct (PrettyFIP_get_recommendation (RFloatingIP f) w) as [[e|rec] w'].
Qed.

Lemma router_rule_run r w :
  result (PrettyRouter_get_recommendation (RRouter r)) w
  = match router_interfaces r (cloud w) with
    | [] => inr (Some "No networks attached, Delete")
    | _ :: _ =>
        match external_gateway_info r with
        | None => inr None
        | Some g =>
            match lookup_network (gw_network_id g) (cloud w) with
            | None => inl NotFoundException
            | Some n => inr (if is_midonet n then Some "Replace" else None)
            end
        end
    end.
Proof.
  unfold result, PrettyRouter_get_recommendation, py_list, conn.ports, bind, log,
    get_cloud, router_interfaces; simpl.
  destruct (select_ports _ _ _) as [|p ps]; simpl; [done|].
  destruct (external_gateway_info r) as [g|]; simpl; [|done].
  destruct (lookup_network (gw_network_id g) (cloud w)) as [n|] eqn:Hn.
  - rewrite is_legacy_network_id with (n := n) by done. simpl.
    by destruct (is_midonet n).
  - unfold is_legacy_network, bind. by rewrite get_network_missing.
Qed.

(** C4. A router without router-interface ports is recommended
    "No networks attached, Delete" whatever its gateway; with at least one
    such port, it is recommended "Replace" when its external gateway is on
    a legacy network, and nothing when the gateway is on a network that is
    not legacy or when there is no gateway. *)
Theorem router_recommendation (r : Router) (w : World) :
  (router_interfaces r (cloud w) = [] →
   computed_recommendation (RRouter r) w = inr (Some "No networks attached, Delete"))
  ∧ (∀ g n,
       router_interfaces r (cloud w) ≠ [] →
       external_gateway_info r = Some g →
       lookup_network (gw_network_id g) (cloud w) = Some n →
       provider_network_type n = Some "midonet" →
       computed_recommendation (RRouter r) w = inr (Some "Replace"))
  ∧ (∀ g n,
       router_interfaces r (cloud w) ≠ [] →
       external_gateway_info r = Some g →
       lookup_network (gw_network_id g) (cloud w) = Some n →
       provider_network_type n ≠ Some "midonet" →
       computed_recommendation (RRouter r) w = inr None)
  ∧ (router_interfaces r (cloud w) ≠ [] →
     external_gateway_info r = None →
     computed_recommendation (RRouter r) w = inr None).
Proof.
  rewrite computed_recommendation_router, router_rule_run.
  repeat split.
  - by intros ->.
  - intros g n Hi -> -> Hm%is_midonet_true. rewrite Hm.
    by destruct (router_interfaces r (cloud w)).
  - intros g n Hi -> -> Hm%is_midonet_false. rewrite Hm.
    by destruct (router_interfaces r (cloud w)).
  - intros Hi ->. by destruct (router_interfaces r (cloud w)).
Qed.

Lemma fip_rule_run f w :
  result (PrettyFIP_get_recommendation (RFloatingIP f)) w
  = match lookup_network (floating_network_id f) (cloud w) with
    | None => inl NotFoundException
    | Some n =>
        inr (if is_midonet n
             then match port_id f with
                  | None => Some "Unused, Delete"
                  | Some _ => Some "Replace"
                  end
             else None)
    end.
Proof.
  unfold result, PrettyFIP_get_recommendation, attr_floating_ip, bind, ret at 1; simpl.
  destruct (lookup_network (floating_network_id f) (cloud w)) as [n|] eqn:Hn.
  - rewrite is_legacy_network_id with (n := n) by done. simpl.
    destruct (is_midonet n); [|done]. by destruct (port_id f).
  - unfold is_legacy_network, bind. by rewrite get_network_missing.
Qed.

(** C5. A floating IP on a legacy floating network is recommended
    "Unused, Delete" when its [port_id] is [None] and "Replace" when it has
    a port; on a floating network that is not legacy it gets no
    recommendation. *)
Theorem fip_recommendation (f : FloatingIP) (n : Network) (w : World) :
  lookup_network (floating_network_id f) (cloud w) = Some n →
  (provider_network_type n = Some "midonet" → port_id f = None →
   computed_recommendation (RFloatingIP f) w = inr (Some "Unused, Delete"))
  ∧ (provider_network_type n = Some "midonet" → port_id f ≠ None →
     computed_recommendation (RFloatingIP f) w = inr (Some "Replace"))
  ∧ (provider_network_type n ≠ Some "midonet" →
     computed_recommendation (RFloatingIP f) w = inr None).
Proof.
  intros Hn. rewrite computed_recommendation_fip, fip_rule_run, Hn.
  repeat split.
  - intros Hm%is_midonet_true ->. by rewrite Hm.
  - intros Hm%is_midonet_true Hp. rewrite Hm. by destruct (port_id f).
  - intros Hm%is_midonet_false. by rewrite Hm.
Qed.

(** C5 on the three floating IPs of the sample cloud. *)
Lemma fip_recommendation_witness :
  computed_recommendation (RFloatingIP Samples.fip_unused) (fresh Samples.modern_cloud)
    = inr (Some "Unused, Delete")
  ∧ computed_recommendation (RFloatingIP Samples.fip_bound) (fresh Samples.modern_cloud)
    = inr (Some "Replace")
  ∧ computed_recommendation (RFloatingIP Samples.fip_modern) (fresh Samples.modern_cloud)
    = inr None.
Proof.
  pose (w := fresh Samples.modern_cloud).
  assert (Hm : lookup_network "ext-mido" (cloud w)
               = Some (Samples.floating "ext-mido" "midonet")) by reflexivity.
  assert (Ho : lookup_network "ext-ovn" (cloud w)
               = Some (Samples.floating "ext-ovn" "geneve")) by reflexivity.
  split; [|split].
  - apply (proj1 (fip_recommendation Samples.fip_unused _ w Hm)); reflexivity.
  - apply (proj1 (proj2 (fip_recommendation Samples.fip_bound _ w Hm)));
      [reflexivity|discriminate].
  - apply (proj2 (proj2 (fip_recommendation Samples.fip_modern _ w Ho))).
    discriminate.
Defined.

(** C4 on the four routers of the sample cloud. *)
Lemma router_recommendation_witness :
  computed_recommendation (RRouter Samples.rt_idle) (fresh Samples.modern_cloud)
    = inr (Some "No networks attached, Delete")
  ∧ computed_recommendation (RRouter Samples.rt_old) (fresh Samples.modern_cloud)
    = inr (Some "Replace")
  ∧ computed_recommendation (RRouter Samples.rt_new) (fresh Samples.modern_cloud)
    = inr None
  ∧ computed_recommendation (RRouter Samples.rt_inner) (fresh Samples.modern_cloud)
    = inr None.
Proof.
  pose (w := fresh Samples.modern_cloud).
  split; [|split; [|split]].
  - apply (proj1 (router_recommendation Samples.rt_idle w)). reflexivity.
  - apply (proj1 (proj2 (router_recommendation Samples.rt_old w))
             {| gw_network_id := "ext-mido" |} (Samples.floating "ext-mido" "midonet"));
      [discriminate|reflexivity|reflexivity|reflexivity].
  - apply (proj1 (proj2 (proj2 (router_recommendation Samples.rt_new w)))
             {| gw_network_id := "ext-ovn" |} (Samples.floating "ext-ovn" "geneve"));
      [discriminate|reflexivity|reflexivity|discriminate].
  - apply (proj2 (proj2 (proj2 (router_recommendation Samples.rt_inner w))));
      [discriminate|reflexivity].
Defined.

(** Two descriptions of one world, up to the bracketing of appended logs. *)
Ltac same_world :=
  simpl; repeat (rewrite <- app_assoc; simpl); reflexivity.

(** ** Running the privilege check *)

(** Unfolds the monad and the SDK calls down to functions on worlds. *)
Ltac run :=
  cbv beta iota zeta delta
    [bind ret raise try_except log print print_table get_cloud put_tags
     py_list getitem_generator result after
     conn.get_role conn.list_role_assignments conn.get_project conn.networks
     conn.add_tag conn.remove_tag
     is_tenant_manager is_legacy_project add_events add_output];
  simpl.

(** The requests that [is_tenant_manager] makes on a cloud. *)
Definition tm_events (c : Cloud) : list event :=
  trace (after is_tenant_manager (fresh c)).

(** Whether the current user holds the role on the current project. *)
Definition holds_role (c : Cloud) : bool :=
  match result is_tenant_manager (fresh c) with
  | inr b => b
  | inl _ => false
  end.

Lemma is_tenant_manager_run w :
  is_tenant_manager w = (inr (holds_role (cloud w)), add_events w (tm_events (cloud w))).
Proof.
  unfold holds_role, tm_events. run.
  destruct (role_lookup_forbidden (cloud w)); simpl; [done|].
  destruct (find_role "TenantManager" (cloud w)) as [r|]; simpl; [|done].
  by rewrite <- app_assoc.
Qed.

Lemma holds_role_spec w b : result is_tenant_manager w = inr b ↔ holds_role (cloud w) = b.
Proof.
  unfold result. rewrite is_tenant_manager_run; simpl.
  split; [by intros [= ->]|by intros ->].
Qed.

Lemma tm_events_cases c :
  tm_events c = [GetRole "TenantManager"]
  ∨ ∃ r, tm_events c = [GetRole "TenantManager";
                        ListRoleAssignments (current_user_id c) (current_project_id c) r].
Proof.
  unfold tm_events. run.
  destruct (role_lookup_forbidden c); simpl; [by left|].
  destruct (find_role "TenantManager" c) as [r|]; simpl; [|by left].
  right. by exists (role_id r).
Qed.

Lemma tm_events_queries c : Forall (λ e, is_query e = true) (tm_events c).
Proof.
  destruct (tm_events_cases c) as [->|[r ->]]; repeat constructor.
Qed.

Lemma holds_role_with_tags c t : holds_role (with_tags c t) = holds_role c.
Proof.
  unfold holds_role. run.
  destruct (role_lookup_forbidden c); simpl; [done|].
  change (find_role "TenantManager" (with_tags c t))
    with (find_role "TenantManager" c).
  by destruct (find_role "TenantManager" c).
Qed.

Lemma tm_events_with_tags c t : tm_events (with_tags c t) = tm_events c.
Proof.
  unfold tm_events. run.
  destruct (role_lookup_forbidden c); simpl; [done|].
  change (find_role "TenantManager" (with_tags c t))
    with (find_role "TenantManager" c).
  by destruct (find_role "TenantManager" c).
Qed.

(** ** Running switch *)

(** The networking mode that the project declares, as [check] prints it. *)
Definition is_legacy (c : Cloud) : bool :=
  bool_decide (TAG_LEGACY ∈ project_tags (project c)).

Definition declared_mode (c : Cloud) : string :=
  if is_legacy c then NAME_MIDONET else NAME_OVN.

(** The world that [switch] leaves when the caller holds the role: the
    banner, the privilege check, and two project lookups unless the mode
    is neither name; then per branch. *)
Definition switch_prefix (w : World) : World :=
  add_events (add_output w [Line "Switching project networking"])
             (Call "switch" :: tm_events (cloud w)
              ++ [GetProject (current_project_id (cloud w))])%list.

Definition set_cloud (w : World) (c : Cloud) : World :=
  {| cloud := c; stdout := stdout w; trace := trace w |}.

Lemma switch_unprivileged n w :
  holds_role (cloud w) = false →
  switch (SwitchArgs n) w
  = (inr (), add_output
               (add_events (add_output w [Line "Switching project networking"])
                           (Call "switch" :: tm_events (cloud w)))
               [Line MSG_NO_PRIVILEGE_SWITCH]).
Proof.
  intros H. unfold switch, bind at 1 2 3 4. simpl.
  rewrite is_tenant_manager_run; simpl. rewrite H; simpl.
  unfold print, add_output, add_events. same_world.
Qed.

Lemma switch_privileged n w :
  holds_role (cloud w) = true →
  switch (SwitchArgs n) w
  = let w1 := switch_prefix w in
    let w2 := add_events w1 [GetProject (current_project_id (cloud w))] in
    if String.eqb n NAME_MIDONET then
      if is_legacy (cloud w) then (inr (), add_output w2 [Line (MSG_ALREADY NAME_MIDONET)])
      else (inr (),
            add_output
              (set_cloud (add_events w2 [AddTag TAG_LEGACY])
                 (with_tags (cloud w) (project_tags (project (cloud w)) ∪ {[TAG_LEGACY]})))
              [Line (MSG_SET NAME_MIDONET);
               Line "Please wait 2 minutes for changes to propagate to all service."])
    else if String.eqb n NAME_OVN then
      if is_legacy (cloud w) then
        (inr (),
         add_output
           (set_cloud (add_events w2 [RemoveTag TAG_LEGACY])
              (with_tags (cloud w) (project_tags (project (cloud w)) ∖ {[TAG_LEGACY]})))
           [Line (MSG_SET NAME_OVN);
            Line "Please wait 2 minutes for changes to propagate to all services."])
      else (inr (), add_output w2 [Line (MSG_ALREADY NAME_OVN)])
    else (inr (), w1).
Proof.
  intros H. unfold switch, bind at 1 2 3 4. simpl.
  rewrite is_tenant_manager_run; simpl. rewrite H; simpl.
  unfold bind at 1. simpl.
  unfold switch_prefix, add_output, set_cloud, add_events, is_legacy; simpl.
  destruct (String.eqb n NAME_MIDONET); simpl.
  { unfold bind, is_legacy_project, conn.get_project, conn.add_tag, log, get_cloud,
      put_tags, print, ret; simpl.
    destruct (bool_decide _); same_world. }
  destruct (String.eqb n NAME_OVN); simpl.
  { unfold bind, is_legacy_project, conn.get_project, conn.remove_tag, log, get_cloud,
      put_tags, print, ret; simpl.
    destruct (bool_decide _); same_world. }
  unfold ret. same_world.
Qed.

(** ** C7, C8, C10: switch *)

Definition no_mutation (evs : list event) : Prop :=
  Forall (λ e, is_mutation e = false) evs.

Lemma no_mutation_queries evs :
  Forall (λ e, is_query e = true) evs → no_mutation evs.
Proof.
  intros H. eapply Forall_impl; [exact H|].
  intros e. unfold is_query. by destruct e.
Qed.

Lemma no_mutation_tm c : no_mutation (tm_events c).
Proof. apply no_mutation_queries, tm_events_queries. Qed.

(** C7. When the caller holds the role and the project already declares
    the requested mode, [switch] returns normally, leaves the cloud (and so
    the tag set) as it was, makes no tag request, and prints the banner
    followed by the "already set" message. *)
Theorem switch_idempotent (mode : string) (w : World) :
  result is_tenant_manager w = inr true →
  declared_mode (cloud w) = mode →
  result (switch (SwitchArgs mode)) w = inr ()
  ∧ cloud (after (switch (SwitchArgs mode)) w) = cloud w
  ∧ stdout (after (switch (SwitchArgs mode)) w)
    = (stdout w ++ [Line "Switching project networking";
                    Line ("Project is already set to " +:+ mode +:+ " networking")])%list
  ∧ ∃ evs, trace (after (switch (SwitchArgs mode)) w) = (trace w ++ evs)%list
           ∧ no_mutation evs.
Proof.
  intros Htm%holds_role_spec Hmode. unfold result, after.
  rewrite (switch_privileged _ _ Htm). unfold declared_mode in Hmode.
  pose proof (no_mutation_tm (cloud w)) as Hq.
  destruct (is_legacy (cloud w)) eqn:Hl; subst mode; simpl; rewrite ?Hl; simpl;
    (split; [done|split; [done|split; [by rewrite <- app_assoc|]]]);
    (eexists; split; [rewrite <- app_assoc; reflexivity|]);
    (apply Forall_app; split; [|by repeat constructor]);
    (constructor; [done|]); (apply Forall_app; split; [done|by repeat constructor]).
Qed.

(** C7 on the sample cloud, already on modern networking. *)
Lemma switch_idempotent_witness :
  result is_tenant_manager (fresh Samples.modern_cloud) = inr true
  ∧ declared_mode (cloud (fresh Samples.modern_cloud)) = "modern"
  ∧ stdout (after (switch (SwitchArgs "modern")) (fresh Samples.modern_cloud))
    = [Line "Switching project networking";
       Line "Project is already set to modern networking"].
Proof.
  assert (H1 : result is_tenant_manager (fresh Samples.modern_cloud) = inr true)
    by (vm_compute; reflexivity).
  assert (H2 : declared_mode (cloud (fresh Samples.modern_cloud)) = "modern")
    by (vm_compute; reflexivity).
  split; [exact H1|]. split; [exact H2|].
  exact (proj1 (proj2 (proj2 (switch_idempotent "modern" _ H1 H2)))).
Defined.

Lemma switch_legacy_cloud w :
  holds_role (cloud w) = true → is_legacy (cloud w) = false →
  cloud (after (switch (SwitchArgs NAME_MIDONET)) w)
  = with_tags (cloud w) (project_tags (project (cloud w)) ∪ {[TAG_LEGACY]}).
Proof.
  intros Htm Hl. unfold after. rewrite (switch_privileged _ _ Htm); simpl.
  by rewrite Hl.
Qed.

Lemma switch_modern_cloud w :
  holds_role (cloud w) = true → is_legacy (cloud w) = true →
  cloud (after (switch (SwitchArgs NAME_OVN)) w)
  = with_tags (cloud w) (project_tags (project (cloud w)) ∖ {[TAG_LEGACY]}).
Proof.
  intros Htm Hl. unfold after. rewrite (switch_privileged _ _ Htm); simpl.
  by rewrite Hl.
Qed.

Lemma add_remove_tag (tags : gset string) (t : string) :
  t ∉ tags → (tags ∪ {[t]}) ∖ {[t]} = tags.
Proof.
  intros Hno. apply set_eq. intros x.
  rewrite elem_of_difference, elem_of_union, !elem_of_singleton.
  split; [by intros [[?|?] ?]|].
  intros Hx. split; [by left|]. by intros ->.
Qed.

Lemma with_tags_same c : with_tags c (project_tags (project c)) = c.
Proof. by destruct c as [? ? ? ? [? ? ?] ? ? ? ? ? ?]. Qed.

Lemma with_tags_twice c t1 t2 : with_tags (with_tags c t1) t2 = with_tags c t2.
Proof. reflexivity. Qed.

(** C8. From a project without the legacy tag, with the caller holding the
    role, [switch legacy] adds the tag and a following [switch modern]
    (for which the caller still holds the role) removes it: the tag set,
    and the whole cloud, are back to what they were. *)
Theorem switch_round_trip (w : World) :
  TAG_LEGACY ∉ project_tags (project (cloud w)) →
  result is_tenant_manager w = inr true →
  let w1 := after (switch (SwitchArgs NAME_MIDONET)) w in
  let w2 := after (switch (SwitchArgs NAME_OVN)) w1 in
  TAG_LEGACY ∈ project_tags (project (cloud w1))
  ∧ result is_tenant_manager w1 = inr true
  ∧ project_tags (project (cloud w2)) = project_tags (project (cloud w))
  ∧ cloud w2 = cloud w.
Proof.
  intros Hno Htm%holds_role_spec w1 w2.
  assert (Hl : is_legacy (cloud w) = false) by (by apply bool_decide_eq_false).
  pose proof (switch_legacy_cloud w Htm Hl) as Hc1. fold w1 in Hc1.
  assert (Htm1 : holds_role (cloud w1) = true)
    by (by rewrite Hc1, holds_role_with_tags).
  assert (Hin : TAG_LEGACY ∈ project_tags (project (cloud w1)))
    by (rewrite Hc1; simpl; set_solver).
  assert (Hl1 : is_legacy (cloud w1) = true) by (by apply bool_decide_eq_true).
  pose proof (switch_modern_cloud w1 Htm1 Hl1) as Hc2. fold w2 in Hc2.
  assert (Hback : project_tags (project (cloud w1)) ∖ {[TAG_LEGACY]}
                  = project_tags (project (cloud w)))
    by (rewrite Hc1; simpl; by apply add_remove_tag).
  assert (Hcloud : cloud w2 = cloud w)
    by (by rewrite Hc2, Hback, Hc1, with_tags_twice, with_tags_same).
  split; [done|]. split; [by apply holds_role_spec|]. split; [by rewrite Hcloud|done].
Qed.

(** C8 on the sample cloud. *)
Lemma switch_round_trip_witness :
  (TAG_LEGACY ∉ project_tags (project (cloud (fresh Samples.modern_cloud))))
  ∧ result is_tenant_manager (fresh Samples.modern_cloud) = inr true
  ∧ project_tags (project (cloud
      (after (switch (SwitchArgs NAME_OVN))
         (after (switch (SwitchArgs NAME_MIDONET)) (fresh Samples.modern_cloud)))))
    = project_tags (project (cloud (fresh Samples.modern_cloud))).
Proof.
  assert (H1 : TAG_LEGACY ∉ project_tags (project (cloud (fresh Samples.modern_cloud))))
    by (simpl; set_solver).
  assert (H2 : result is_tenant_manager (fresh Samples.modern_cloud) = inr true)
    by (vm_compute; reflexivity).
  split; [exact H1|]. split; [exact H2|].
  exact (proj1 (proj2 (proj2 (switch_round_trip _ H1 H2)))).
Defined.

Lemma mem_choices n : mem n [NAME_MIDONET; NAME_OVN] = true → n = NAME_MIDONET ∨ n = NAME_OVN.
Proof.
  unfold mem; simpl. rewrite orb_false_r.
  intros [H|H]%orb_true_iff; apply String.eqb_eq in H; auto.
Qed.

(** What [parse_args] accepts for [switch]: only the two names. *)
Lemma parse_args_switch argv w n :
  result (parse_args argv) w = inr (SwitchArgs n) → n = NAME_MIDONET ∨ n = NAME_OVN.
Proof.
  unfold result, parse_args. destruct argv as [|sub rest]; [discriminate|].
  destruct (String.eqb sub "check").
  { destruct (forallb _ rest); discriminate. }
  destruct (String.eqb sub "switch"); [|discriminate].
  destruct rest as [|m [|? ?]]; try discriminate.
  destruct (mem m _) eqn:Hm; [|discriminate].
  unfold ret; simpl. intros [= <-]. by apply mem_choices.
Qed.

(** C10. Called with a value that is neither ['legacy'] nor ['modern'] by a
    caller holding the role, [switch] returns normally after the banner:
    nothing else is printed, the cloud and its tag set are unchanged and no
    tag request is made.  No command line reaches [switch] with such a
    value: [parse_args] only yields the two names. *)
Theorem switch_unknown_mode (n : string) (w : World) :
  n ≠ NAME_MIDONET → n ≠ NAME_OVN →
  result is_tenant_manager w = inr true →
  result (switch (SwitchArgs n)) w = inr ()
  ∧ cloud (after (switch (SwitchArgs n)) w) = cloud w
  ∧ stdout (after (switch (SwitchArgs n)) w)
    = (stdout w ++ [Line "Switching project networking"])%list
  ∧ (∃ evs, trace (after (switch (SwitchArgs n)) w) = (trace w ++ evs)%list
            ∧ no_mutation evs)
  ∧ ∀ argv w0, result (parse_args argv) w0 ≠ inr (SwitchArgs n).
Proof.
  intros H1 H2 Htm%holds_role_spec. unfold result, after.
  rewrite (switch_privileged _ _ Htm); simpl.
  apply String.eqb_neq in H1 as E1. apply String.eqb_neq in H2 as E2.
  rewrite E1, E2; simpl.
  split; [done|split; [done|split; [done|split]]].
  - eexists; split; [reflexivity|].
    constructor; [done|]. apply Forall_app; split; [apply no_mutation_tm|].
    by repeat constructor.
  - intros argv w0 Hp. destruct (parse_args_switch _ _ _ Hp); contradiction.
Qed.

(** C10 with the value ['ovn']. *)
Lemma switch_unknown_mode_witness :
  "ovn" ≠ NAME_MIDONET ∧ "ovn" ≠ NAME_OVN
  ∧ result is_tenant_manager (fresh Samples.modern_cloud) = inr true
  ∧ stdout (after (switch (SwitchArgs "ovn")) (fresh Samples.modern_cloud))
    = [Line "Switching project networking"].
Proof.
  assert (H1 : "ovn" ≠ NAME_MIDONET) by discriminate.
  assert (H2 : "ovn" ≠ NAME_OVN) by discriminate.
  assert (H3 : result is_tenant_manager (fresh Samples.modern_cloud) = inr true)
    by (vm_compute; reflexivity).
  split; [exact H1|]. split; [exact H2|]. split; [exact H3|].
  exact (proj1 (proj2 (proj2 (switch_unknown_mode "ovn" _ H1 H2 H3)))).
Defined.

(** ** C3: check_sync *)

(** [check_sync] subscripts the generator that [conn.network.networks]
    returns, where [check_sanity] first collects it with [list(...)]: it
    raises before any request is made, on every cloud. *)
Lemma check_sync_raises w :
  check_sync w = (inl (TypeError "'generator' object is not subscriptable"), w).
Proof. reflexivity. Qed.

(** What the comparison would be on a cloud: the legacy classification of
    the first external network against the project's tag state. *)
Definition in_sync (c : Cloud) : option bool :=
  match select_networks external_query c with
  | [] => None
  | n :: _ => Some (Bool.eqb (is_midonet n) (is_legacy c))
  end.

(** C3. On a cloud whose first external network and project tag agree,
    [check_sync] does not return a boolean: it raises [TypeError]. *)
Theorem check_sync_fails_on_consistent_cloud :
  in_sync Samples.modern_cloud = Some true
  ∧ result check_sync (fresh Samples.modern_cloud)
    = inl (TypeError "'generator' object is not subscriptable")
  ∧ ∀ b, result check_sync (fresh Samples.modern_cloud) ≠ inr b.
Proof.
  split; [by vm_compute|]. unfold result. rewrite check_sync_raises. split; [done|].
  intros b; discriminate.
Qed.

(** ** C9: unrecognised resources *)

Definition recognised_keys : list string := ["floatingip"; "network"; "router"; "server"].

(** An object that the classification layer does not accept: not a
    Resource, or a Resource whose key is not one of the four. *)
Definition unrecognised (o : pyobj) : Prop :=
  match o with
  | PyOther _ => True
  | PyResource r => resource_key r ∉ recognised_keys
  end.

(** The error it is rejected with. *)
Definition rejection (o : pyobj) : exn :=
  match o with
  | PyOther t => TypeError ("Expected openstack.resource.Resource, got " +:+ t)
  | PyResource r => ValueError ("Unknown resource type " +:+ resource_key r)
  end.

Lemma unrecognised_rejected o w :
  unrecognised o → _resource_to_prettyresource o w = (inl (rejection o), w).
Proof.
  destruct o as [r|t]; simpl; [|done].
  intros Hk. unfold recognised_keys in Hk.
  rewrite query_map_unknown; [done|..]; intros E; apply Hk; rewrite E; set_solver.
Qed.

(** A comprehension stops at the first element on which [f] raises. *)
Lemma traverse_raises {A B} (f : A → M B) (x : A) (pre post : list A) :
  (∀ w, ∃ e w', f x w = (inl e, w')) →
  ∀ w, ∃ e w', traverse f (pre ++ x :: post) w = (inl e, w').
Proof.
  intros Hx. induction pre as [|y pre IH]; intros w; simpl; unfold bind.
  - destruct (Hx w) as (e & w' & ->). eauto.
  - destruct (f y w) as [[e|b] w1]; [eauto|].
    destruct (IH w1) as (e & w' & ->). eauto.
Qed.

(** C9. Building a row from a value that is not a Resource raises
    [TypeError], in the dispatcher and in each of the four classes; a
    Resource whose key is not one of the four raises [ValueError]; and a
    collection that contains such an object yields no rows at all, the
    error of a leading one reaching the caller as it was raised. *)
Theorem classification_fails_fast :
  (∀ t w, _resource_to_prettyresource (PyOther t) w
          = (inl (TypeError ("Expected openstack.resource.Resource, got " +:+ t)), w))
  ∧ (∀ t w class, class ∈ [PrettyFIP; PrettyNetwork; PrettyRouter; PrettyServer] →
       class (PyOther t) w
       = (inl (TypeError ("Expected openstack.resource.Resource, got " +:+ t)), w))
  ∧ (∀ r w, resource_key r ∉ recognised_keys →
       _resource_to_prettyresource (PyResource r) w
       = (inl (ValueError ("Unknown resource type " +:+ resource_key r)), w))
  ∧ (∀ o post all w, unrecognised o →
       _resources_to_prettyrows (iter_list (o :: post)) all w = (inl (rejection o), w))
  ∧ (∀ o pre post all w, unrecognised o →
       ∃ e w', _resources_to_prettyrows (iter_list (pre ++ o :: post)) all w = (inl e, w')).
Proof.
  split; [done|]. split.
  { intros t w class Hc.
    repeat (apply elem_of_cons in Hc as [->|Hc]; [reflexivity|]).
    by apply elem_of_nil in Hc. }
  split; [intros r w Hk; by apply (unrecognised_rejected (PyResource r))|].
  split.
  - intros o post all w Ho.
    unfold _resources_to_prettyrows, iter_list, bind, ret; simpl. unfold bind.
    by rewrite unrecognised_rejected.
  - intros o pre post all w Ho.
    unfold _resources_to_prettyrows, iter_list, bind at 1, ret at 1.
    destruct (traverse_raises _resource_to_prettyresource o pre post) with (w := w)
      as (e & w' & Ht).
    { intros w0. rewrite unrecognised_rejected by done. eauto. }
    unfold bind. rewrite Ht. eauto.
Qed.

(** C9 on a dict and on a port. *)
Lemma classification_fails_fast_witness :
  (resource_key (ROther "port" "pt1" "eth0") ∉ recognised_keys)
  ∧ PrettyRouter (PyOther "<class 'dict'>") (fresh Samples.modern_cloud)
    = (inl (TypeError "Expected openstack.resource.Resource, got <class 'dict'>"),
       fresh Samples.modern_cloud)
  ∧ _resource_to_prettyresource (PyResource (ROther "port" "pt1" "eth0"))
      (fresh Samples.modern_cloud)
    = (inl (ValueError "Unknown resource type port"), fresh Samples.modern_cloud).
Proof.
  assert (Hk : resource_key (ROther "port" "pt1" "eth0") ∉ recognised_keys).
  { intros H. repeat (apply elem_of_cons in H as [H|H]; [discriminate|]).
    by apply elem_of_nil in H. }
  split; [exact Hk|]. split.
  - apply (proj1 (proj2 classification_fails_fast)).
    apply elem_of_cons; right. apply elem_of_cons; right. apply elem_of_cons; by left.
  - apply (proj1 (proj2 (proj2 classification_fails_fast)) _ _ Hk).
Defined.

(** ** C1, C2: the gate *)

(** [check_sanity], branch by branch. *)
Lemma check_sanity_run w :
  check_sanity w
  = let w1 := add_events w (Call "check_sanity" :: tm_events (cloud w)) in
    if holds_role (cloud w) then
      match select_networks floating_query (cloud w) with
      | [] => (inl (IndexError "list index out of range"),
               add_events w1 [ListNetworks floating_query])
      | n :: _ =>
          let w2 := add_events w1 [ListNetworks floating_query;
                                   GetProject (current_project_id (cloud w))] in
          if Bool.eqb (is_midonet n) (is_legacy (cloud w)) then (inr true, w2)
          else (inr false, add_output w2 [Line MSG_RECENTLY_SWITCHED])
      end
    else (inr false, add_output w1 [Line MSG_NO_PRIVILEGE_CHECK]).
Proof.
  unfold check_sanity, bind at 1 2. simpl.
  rewrite is_tenant_manager_run; simpl.
  destruct (holds_role (cloud w)); simpl.
  - run. destruct (select_networks floating_query (cloud w)) as [|n ns]; simpl.
    + unfold add_events; same_world.
    + unfold is_legacy. destruct (Bool.eqb _ _); simpl; unfold add_events; same_world.
  - unfold bind, print, ret, add_output, add_events; same_world.
Qed.

Lemma check_sanity_trace w :
  cloud (after check_sanity w) = cloud w
  ∧ ∃ evs, trace (after check_sanity w) = (trace w ++ Call "check_sanity" :: evs)%list
           ∧ Forall (λ e, is_query e = true) evs.
Proof.
  unfold after. rewrite check_sanity_run; simpl.
  pose proof (tm_events_queries (cloud w)) as Hq.
  destruct (holds_role (cloud w)); simpl.
  - destruct (select_networks floating_query (cloud w)) as [|n ns]; simpl.
    + split; [done|]. eexists. split; [by rewrite <- app_assoc|].
      apply Forall_app; split; [done|by repeat constructor].
    + destruct (Bool.eqb _ _); simpl; (split; [done|]);
        (eexists; split; [by rewrite <- app_assoc|]);
        (apply Forall_app; split; [done|by repeat constructor]).
  - split; [done|]. eexists. split; [reflexivity|done].
Qed.

Lemma check_sanity_false w :
  result check_sanity w = inr false →
  ∃ msg, (msg = MSG_NO_PRIVILEGE_CHECK ∨ msg = MSG_RECENTLY_SWITCHED)
         ∧ stdout (after check_sanity w) = (stdout w ++ [Line msg])%list.
Proof.
  unfold result, after. rewrite check_sanity_run; simpl.
  destruct (holds_role (cloud w)); simpl; [|by eauto].
  destruct (select_networks floating_query (cloud w)) as [|n ns]; simpl; [done|].
  destruct (Bool.eqb _ _); simpl; [done|by eauto].
Qed.

Lemma check_sanity_true w :
  result check_sanity w = inr true → stdout (after check_sanity w) = stdout w.
Proof.
  unfold result, after. rewrite check_sanity_run; simpl.
  destruct (holds_role (cloud w)); simpl; [|done].
  destruct (select_networks floating_query (cloud w)) as [|n ns]; simpl; [done|].
  by destruct (Bool.eqb _ _).
Qed.

Lemma parse_args_pure argv w : parse_args argv w = (result (parse_args argv) w, w).
Proof.
  unfold result, parse_args. destruct argv as [|sub rest]; [done|].
  destruct (String.eqb sub "check"); [by destruct (forallb _ rest)|].
  destruct (String.eqb sub "switch"); [|done].
  destruct rest as [|m [|? ?]]; try done. by destruct (mem m _).
Qed.

(** [main] after a successful parse: the gate, then the command. *)
Lemma main_run argv args w :
  result (parse_args argv) w = inr args →
  main argv w
  = match check_sanity w with
    | (inr true, w') => command args w'
    | (inr false, w') => (inr (), w')
    | (inl e, w') => (inl e, w')
    end.
Proof.
  intros Hp. unfold main, bind at 1. rewrite parse_args_pure, Hp. unfold bind.
  destruct (check_sanity w) as [[e|[|]] w']; reflexivity.
Qed.

(** Neither command enters the gate by itself. *)
Lemma command_never_gates args : emits (λ e, e ≠ Call "check_sanity") (command args).
Proof.
  assert (Hq : ∀ e, is_query e = true → e ≠ Call "check_sanity")
    by (intros e He ->; discriminate).
  destruct args; simpl.
  - apply reads_emits, reads_check; [exact Hq|discriminate].
  - apply emits_switch; [exact Hq|discriminate..].
Qed.

Lemma queries_not_gate evs :
  Forall (λ e, is_query e = true) evs → Call "check_sanity" ∉ evs.
Proof.
  intros H Hin. rewrite Forall_forall in H. by apply H in Hin.
Qed.

(** C1. On every run that gets past argument parsing, the first thing
    [main] does is enter [check_sanity], and it enters it only once, so
    whatever [check] or [switch] do comes after it.  If [check_sanity]
    returns true the command runs in the world the gate left.  If it
    returns false, [main] returns normally without entering a command:
    only one of the two sanity messages is printed, the cloud is
    unchanged and only read requests were made.  When [is_tenant_manager]
    returns false, the requests made are exactly those of that one
    privilege check. *)
Theorem main_gate (argv : list string) (args : Namespace) (w : World) :
  result (parse_args argv) w = inr args →
  (∃ rest, trace (after (main argv) w) = (trace w ++ Call "check_sanity" :: rest)%list
           ∧ Call "check_sanity" ∉ rest)
  ∧ (result check_sanity w = inr true →
     main argv w = command args (after check_sanity w))
  ∧ (result check_sanity w = inr false →
     result (main argv) w = inr ()
     ∧ cloud (after (main argv) w) = cloud w
     ∧ (∃ msg, (msg = MSG_NO_PRIVILEGE_CHECK ∨ msg = MSG_RECENTLY_SWITCHED)
               ∧ stdout (after (main argv) w) = (stdout w ++ [Line msg])%list)
     ∧ ∃ evs, trace (after (main argv) w) = (trace w ++ Call "check_sanity" :: evs)%list
              ∧ Forall (λ e, is_query e = true) evs)
  ∧ (result is_tenant_manager w = inr false →
     main argv w
     = (inr (), add_output (add_events w (Call "check_sanity" :: tm_events (cloud w)))
                           [Line MSG_NO_PRIVILEGE_CHECK])).
Proof.
  intros Hp. pose proof (main_run _ _ _ Hp) as Hmain.
  destruct (check_sanity_trace w) as (Hc & evs & Ht & Hq).
  pose proof (check_sanity_false w) as Hf.
  unfold result, after in *.
  split; [|split; [|split]].
  - rewrite Hmain. destruct (check_sanity w) as [[e|[|]] w'] eqn:Hs; simpl in *.
    + exists evs. split; [done|by apply queries_not_gate].
    + destruct (command_never_gates args w') as (evc & Htc & Hnc).
      unfold after in Htc. exists (evs ++ evc)%list. split.
      * rewrite Htc, Ht, <- app_assoc. done.
      * intros [Hin|Hin]%elem_of_app; [by apply queries_not_gate in Hin|].
        rewrite Forall_forall in Hnc. by apply Hnc in Hin.
    + exists evs. split; [done|by apply queries_not_gate].
  - intros Hs. rewrite Hmain. by destruct (check_sanity w) as [[e|[|]] w'].
  - intros Hs. rewrite Hmain.
    destruct (check_sanity w) as [[e|[|]] w']; simpl in *; try discriminate.
    split; [done|]. split; [done|]. split; [by apply Hf|]. by exists evs.
  - intros Htm%holds_role_spec. rewrite Hmain, check_sanity_run; simpl.
    by rewrite Htm.
Qed.

(** C1 for [switch legacy] run by a user without the role. *)
Lemma main_gate_witness :
  result (parse_args ["switch"; "legacy"]) (fresh Samples.unprivileged_cloud)
    = inr (SwitchArgs "legacy")
  ∧ result is_tenant_manager (fresh Samples.unprivileged_cloud) = inr false
  ∧ main ["switch"; "legacy"] (fresh Samples.unprivileged_cloud)
    = (inr (),
       add_output
         (add_events (fresh Samples.unprivileged_cloud)
            (Call "check_sanity" :: tm_events Samples.unprivileged_cloud))
         [Line MSG_NO_PRIVILEGE_CHECK]).
Proof.
  assert (H1 : result (parse_args ["switch"; "legacy"]) (fresh Samples.unprivileged_cloud)
               = inr (SwitchArgs "legacy")) by reflexivity.
  assert (H2 : result is_tenant_manager (fresh Samples.unprivileged_cloud) = inr false)
    by (vm_compute; reflexivity).
  split; [exact H1|]. split; [exact H2|].
  exact (proj2 (proj2 (proj2 (main_gate _ _ _ H1))) H2).
Defined.

(** Whether a function was entered, according to a trace. *)
Definition entered (fn : string) (evs : list event) : bool :=
  existsb (λ e, match e with Call f => String.eqb f fn | _ => false end) evs.

Lemma entered_false fn evs : Call fn ∉ evs → entered fn evs = false.
Proof.
  intros H. unfold entered. induction evs as [|e evs IH]; [done|]; simpl.
  rewrite IH by (intros Hin; apply H; by right).
  destruct e; try done. rewrite orb_false_r. apply String.eqb_neq.
  intros ->. apply H. by left.
Qed.

(** C2, as stated, fails: called on a cloud on which [check_sanity]
    returns false, [check] does not enter [check_sanity] and prints its
    report, starting with the project banner. *)
Lemma check_reports_when_gate_fails :
  result check_sanity (fresh Samples.unprivileged_cloud) = inr false
  ∧ entered "check_sanity"
      (trace (after (check (CheckArgs false)) (fresh Samples.unprivileged_cloud))) = false
  ∧ take 2 (stdout (after (check (CheckArgs false)) (fresh Samples.unprivileged_cloud)))
    = [Line "Project: demo"; Line "Networking: modern"]
  ∧ stdout (after (check (CheckArgs false)) (fresh Samples.unprivileged_cloud))
    ≠ stdout (fresh Samples.unprivileged_cloud).
Proof.
  split; [by vm_compute|]. split; [by vm_compute|]. split; [by vm_compute|].
  vm_compute. discriminate.
Qed.

(** * Further properties *)

(** ** Step invariants of the classification layer

    The classification layer only reads the cloud: it is built from
    [log], [get_cloud], [ret] and [raise].  Any reflexive and transitive
    relation that [log] keeps is therefore kept by all of it. *)

Section Classification.
Variable R : World → World → Prop.
Hypothesis R_refl : ∀ w, R w w.
Hypothesis R_trans : ∀ w1 w2 w3, R w1 w2 → R w2 w3 → R w1 w3.
Hypothesis R_log : ∀ e, respects R (log e).

Ltac keeps :=
  repeat first
    [ apply (respects_ret R R_refl)
    | apply (respects_raise R R_refl)
    | apply (respects_get_cloud R R_refl)
    | apply (respects_getitem_list R R_refl)
    | apply R_log
    | apply (respects_bind R R_trans); [|intros ?]
    | match goal with
      | |- respects _ (match ?x with _ => _ end) => destruct x
      | |- respects _ (if ?x then _ else _) => destruct x
      end ].

Lemma keeps_get_network i : respects R (conn.get_network i).
Proof. unfold conn.get_network. keeps. Qed.

Lemma keeps_is_legacy_network x : respects R (is_legacy_network x).
Proof.
  unfold is_legacy_network.
  apply (respects_bind R R_trans); [|intros ?; keeps].
  destruct x as [[]|]; first [apply keeps_get_network | keeps].
Qed.

Lemma keeps_legacy_networks_loop l acc : respects R (legacy_networks_loop l acc).
Proof.
  revert acc. induction l as [|i l IH]; intros acc; simpl; [keeps|].
  apply (respects_bind R R_trans); [apply keeps_get_network|intros n].
  apply (respects_bind R R_trans); [apply keeps_is_legacy_network|intros b]. apply IH.
Qed.

Lemma keeps_rules o :
  respects R (PrettyFIP_get_recommendation o)
  ∧ respects R (PrettyNetwork_get_recommendation o)
  ∧ respects R (PrettyRouter_get_recommendation o)
  ∧ respects R (PrettyServer_get_recommendation o).
Proof.
  split; [|split; [|split]].
  - unfold PrettyFIP_get_recommendation, attr_floating_ip.
    apply (respects_bind R R_trans); [keeps|intros f].
    apply (respects_bind R R_trans); [apply keeps_is_legacy_network|intros b]. keeps.
  - unfold PrettyNetwork_get_recommendation.
    apply (respects_bind R R_trans); [apply keeps_is_legacy_network|intros b]. keeps.
  - unfold PrettyRouter_get_recommendation, py_list, conn.ports,
      attr_external_gateway_info.
    apply (respects_bind R R_trans); [keeps|intros ps].
    destruct (_ =? _)%nat; [keeps|].
    apply (respects_bind R R_trans); [keeps|intros [g|]]; [|keeps].
    apply (respects_bind R R_trans); [apply keeps_is_legacy_network|intros b]. keeps.
  - unfold PrettyServer_get_recommendation, py_list, conn.server_interfaces.
    apply (respects_bind R R_trans); [keeps|intros ifs].
    apply (respects_bind R R_trans); [apply keeps_legacy_networks_loop|intros ns]. keeps.
Qed.

Lemma keeps_resource_to_prettyresource o : respects R (_resource_to_prettyresource o).
Proof.
  unfold _resource_to_prettyresource.
  destruct o as [r|t]; [|keeps].
  destruct (_query_map !! resource_key r) as [cls|]; [|keeps].
  unfold globals, PrettyFIP, PrettyNetwork, PrettyRouter, PrettyServer, PrettyResource_init.
  destruct (keeps_rules r) as (Hf & Hn & Hr & Hs).
  repeat (match goal with |- context [String.eqb cls ?s] => destruct (String.eqb cls s) end);
    try (apply (respects_bind R R_trans); [assumption|intros ?]); keeps.
Qed.

Lemma keeps_resources_to_prettyrows g all :
  respects R g → respects R (_resources_to_prettyrows g all).
Proof.
  intros Hg. unfold _resources_to_prettyrows.
  apply (respects_bind R R_trans); [exact Hg|intros items].
  apply (respects_bind R R_trans); [|intros ?; keeps].
  apply (respects_traverse R R_refl R_trans), keeps_resource_to_prettyresource.
Qed.

Lemma keeps_listing {A} (inj : A → Resource) (e : event) (sel : Cloud → list A) all :
  respects R (_resources_to_prettyrows
                (as_objects inj (log e ;;; c <- get_cloud ;; ret (sel c))) all).
Proof. apply keeps_resources_to_prettyrows. unfold as_objects. keeps. Qed.
End Classification.

(** ** The privilege check *)

Lemma filter_nonempty {A} (f : A → bool) (l : list A) :
  List.filter f l ≠ [] ↔ ∃ a, a ∈ l ∧ f a = true.
Proof.
  induction l as [|x l IH]; simpl.
  - split; [done|]. intros (a & Ha & _). by apply elem_of_nil in Ha.
  - destruct (f x) eqn:Hx.
    + split; [|done]. intros _. exists x. split; [by left|done].
    + rewrite IH. split.
      * intros (a & Ha & Hf). exists a. split; [by right|done].
      * intros (a & [->|Ha]%elem_of_cons & Hf); [congruence|eauto].
Qed.

Lemma holds_role_unfold c :
  holds_role c
  = if role_lookup_forbidden c then false
    else match find_role "TenantManager" c with
         | None => false
         | Some r =>
             negb (bool_decide
                     (select_role_assignments (current_user_id c)
                        (current_project_id c) (role_id r) c = []))
         end.
Proof.
  unfold holds_role. run.
  destruct (role_lookup_forbidden c); simpl; [done|].
  by destruct (find_role "TenantManager" c).
Qed.

(** X1. [is_tenant_manager] never raises, and it returns true exactly when
    the role lookup is allowed, finds a role, and some role assignment
    names the current user, the current project and that role. *)
Theorem is_tenant_manager_spec (w : World) :
  ∃ b, result is_tenant_manager w = inr b
       ∧ (b = true ↔
          role_lookup_forbidden (cloud w) = false
          ∧ ∃ r, find_role "TenantManager" (cloud w) = Some r
                 ∧ ∃ a, a ∈ role_assignments (cloud w)
                        ∧ ra_user a = current_user_id (cloud w)
                        ∧ ra_project a = current_project_id (cloud w)
                        ∧ ra_role a = role_id r).
Proof.
  exists (holds_role (cloud w)). split; [by apply holds_role_spec|].
  rewrite holds_role_unfold.
  destruct (role_lookup_forbidden (cloud w)); [by split; [|intros [? _]]|].
  destruct (find_role "TenantManager" (cloud w)) as [r|];
    [|split; [done|by intros (_ & r & ? & _)]].
  rewrite negb_true_iff, bool_decide_eq_false.
  unfold select_role_assignments. rewrite filter_nonempty. split.
  - intros (a & Ha & Hf). split; [done|]. exists r. split; [done|]. exists a.
    apply andb_true_iff in Hf as [[H1 H2]%andb_true_iff H3].
    by rewrite String.eqb_eq in H1, H2, H3.
  - intros (_ & r' & [= <-] & a & Ha & H1 & H2 & H3). exists a. split; [done|].
    rewrite !andb_true_iff, !String.eqb_eq. done.
Qed.

(** X2. When policy forbids the role lookup, or no role answers to
    ['TenantManager'], [is_tenant_manager] returns false after that one
    lookup: the exception is swallowed and role assignments are not
    listed. *)
Theorem is_tenant_manager_without_role (w : World) :
  role_lookup_forbidden (cloud w) = true ∨ find_role "TenantManager" (cloud w) = None →
  is_tenant_manager w = (inr false, add_events w [GetRole "TenantManager"]).
Proof.
  intros H. run.
  destruct (role_lookup_forbidden (cloud w)); simpl; [done|].
  destruct H as [H|H]; [done|]. by rewrite H.
Qed.

(** More sample clouds: variants of [Samples.modern_cloud]. *)
Module Variants.
Definition variant (forbidden : bool) (nets : list Network)
    (ifaces : list ServerInterface) : Cloud :=
  {| current_user_id := current_user_id Samples.modern_cloud;
     role_lookup_forbidden := forbidden;
     roles := roles Samples.modern_cloud;
     role_assignments := role_assignments Samples.modern_cloud;
     project := project Samples.modern_cloud;
     networks_of := nets;
     routers_of := routers_of Samples.modern_cloud;
     ips_of := ips_of Samples.modern_cloud;
     servers_of := servers_of Samples.modern_cloud;
     ports_of := ports_of Samples.modern_cloud;
     interfaces_of := ifaces |}.

(** Policy forbids the role lookup. *)
Definition forbidden_cloud : Cloud :=
  variant true (networks_of Samples.modern_cloud) (interfaces_of Samples.modern_cloud).

(** No external network carries the [nectar:floating] tag. *)
Definition no_floating_cloud : Cloud :=
  variant false [Samples.private "n1" "midonet"; Samples.private "n2" "geneve"]
          (interfaces_of Samples.modern_cloud).

(** The server has a second interface, on the legacy network [n1]. *)
Definition dual_homed_cloud : Cloud :=
  variant false (networks_of Samples.modern_cloud)
          [{| si_server_id := "s1"; net_id := "n2" |};
           {| si_server_id := "s1"; net_id := "n1" |}].

(** The server has an interface on a network that no longer exists, and
    the floating networks are gone. *)
Definition dangling_cloud : Cloud :=
  variant false [Samples.private "n1" "midonet"]
          [{| si_server_id := "s1"; net_id := "gone" |}].

(** Everything legacy has been migrated: only modern networks, a router on
    the modern floating network, a floating IP on it. *)
Definition migrated_cloud : Cloud :=
  {| current_user_id := "u1";
     role_lookup_forbidden := false;
     roles := roles Samples.modern_cloud;
     role_assignments := role_assignments Samples.modern_cloud;
     project := project Samples.modern_cloud;
     networks_of := [Samples.floating "ext-ovn" "geneve"; Samples.private "n2" "geneve"];
     routers_of := [Samples.rt_new];
     ips_of := [Samples.fip_modern];
     servers_of := servers_of Samples.modern_cloud;
     ports_of := ports_of Samples.modern_cloud;
     interfaces_of := interfaces_of Samples.modern_cloud |}.
End Variants.

(** X2 on a cloud whose policy forbids the lookup. *)
Lemma is_tenant_manager_without_role_witness :
  role_lookup_forbidden (cloud (fresh Variants.forbidden_cloud)) = true
  ∧ is_tenant_manager (fresh Variants.forbidden_cloud)
    = (inr false, add_events (fresh Variants.forbidden_cloud) [GetRole "TenantManager"]).
Proof.
  split; [reflexivity|].
  apply (is_tenant_manager_without_role (fresh Variants.forbidden_cloud)).
  left. reflexivity.
Defined.

(** ** The sanity gate *)

(** X3. [check_sanity] returns true exactly when the caller holds the role,
    some external network carries the [nectar:floating] tag, and the first
    such network is legacy exactly when the project has the legacy tag. *)
Theorem check_sanity_true_iff (w : World) :
  result check_sanity w = inr true ↔
  result is_tenant_manager w = inr true
  ∧ ∃ n rest, select_networks floating_query (cloud w) = n :: rest
              ∧ (provider_network_type n = Some "midonet"
                 ↔ TAG_LEGACY ∈ project_tags (project (cloud w))).
Proof.
  rewrite holds_role_spec. unfold result. rewrite check_sanity_run; simpl.
  destruct (holds_role (cloud w)); simpl; [|by split; [|intros [? _]]].
  destruct (select_networks floating_query (cloud w)) as [|n ns]; simpl.
  { split; [done|]. by intros (_ & n & rest & ? & _). }
  assert (Hiff : Bool.eqb (is_midonet n) (is_legacy (cloud w)) = true ↔
                 (provider_network_type n = Some "midonet"
                  ↔ TAG_LEGACY ∈ project_tags (project (cloud w)))).
  { rewrite Bool.eqb_true_iff. unfold is_midonet, is_legacy.
    do 2 case_bool_decide; split; try done; intros; tauto. }
  destruct (Bool.eqb _ _) eqn:E; simpl.
  - split; [|done]. intros _. split; [done|]. exists n, ns. split; [done|]. by apply Hiff.
  - split; [done|]. intros (_ & n' & rest & [= <- <-] & H). apply Hiff in H. congruence.
Qed.

(** X4. When the caller holds the role but no external network carries
    the [nectar:floating] tag, [check_sanity] raises [IndexError]; [main]
    lets it through: nothing is printed and no command is entered. *)
Theorem check_sanity_without_floating_network (w : World) :
  result is_tenant_manager w = inr true →
  select_networks floating_query (cloud w) = [] →
  result check_sanity w = inl (IndexError "list index out of range")
  ∧ ∀ argv args, result (parse_args argv) w = inr args →
      main argv w
      = (inl (IndexError "list index out of range"),
         add_events w (Call "check_sanity" :: tm_events (cloud w)
                       ++ [ListNetworks floating_query])%list).
Proof.
  intros Htm%holds_role_spec Hn.
  assert (Hs : check_sanity w
               = (inl (IndexError "list index out of range"),
                  add_events w (Call "check_sanity" :: tm_events (cloud w)
                                ++ [ListNetworks floating_query])%list)).
  { rewrite check_sanity_run; simpl. rewrite Htm, Hn. unfold add_events; same_world. }
  split; [unfold result; by rewrite Hs|].
  intros argv args Hp. by rewrite (main_run _ _ _ Hp), Hs.
Qed.

(** X4 on a cloud without a floating network, for [check]. *)
Lemma check_sanity_without_floating_network_witness :
  result is_tenant_manager (fresh Variants.no_floating_cloud) = inr true
  ∧ select_networks floating_query (cloud (fresh Variants.no_floating_cloud)) = []
  ∧ result (main ["check"]) (fresh Variants.no_floating_cloud)
    = inl (IndexError "list index out of range").
Proof.
  assert (H1 : result is_tenant_manager (fresh Variants.no_floating_cloud) = inr true)
    by (vm_compute; reflexivity).
  assert (H2 : select_networks floating_query (cloud (fresh Variants.no_floating_cloud)) = [])
    by reflexivity.
  split; [exact H1|]. split; [exact H2|].
  unfold result.
  rewrite (proj2 (check_sanity_without_floating_network _ H1 H2) ["check"] (CheckArgs false));
    reflexivity.
Defined.

(** ** Recommendations for networks and servers *)

(** X5. A network is classified without any request to the cloud: its row
    is labelled [Network], carries its id and name, and recommends
    "Replace" exactly when its provider network type is ['midonet'];
    otherwise it recommends nothing. *)
Theorem network_recommendation (n : Network) (w : World) :
  ∃ p, _resource_to_prettyresource (PyResource (RNetwork n)) w = (inr p, w)
       ∧ prettyrow p
         = ["Network"; network_id n; network_name n; or_empty (recommendation p)]
       ∧ (recommendation p = Some "Replace" ↔ provider_network_type n = Some "midonet")
       ∧ (recommendation p = None ↔ provider_network_type n ≠ Some "midonet").
Proof.
  unfold _resource_to_prettyresource; simpl.
  destruct query_map_known as (_ & -> & _); simpl.
  unfold PrettyNetwork, PrettyResource_init, PrettyNetwork_get_recommendation, bind.
  rewrite is_legacy_network_object.
  destruct (is_midonet n) eqn:Hm; simpl; eexists; (split; [reflexivity|]); simpl;
    (split; [done|]).
  - apply is_midonet_true in Hm. split; [done|]. split; [done|]. by intros H.
  - apply is_midonet_false in Hm. split; [|done]. split; [done|]. by intros H.
Qed.

(** The names that the loop of [PrettyServer] collects when every
    interface is on a network that exists. *)
Definition legacy_names (c : Cloud) (interfaces : list ServerInterface) : list string :=
  flat_map (λ i, match lookup_network (net_id i) c with
                 | Some n => if is_midonet n then [network_name n] else []
                 | None => []
                 end) interfaces.

Lemma legacy_networks_loop_run interfaces acc w :
  Forall (λ i, is_Some (lookup_network (net_id i) (cloud w))) interfaces →
  legacy_networks_loop interfaces acc w
  = (inr (acc ++ legacy_names (cloud w) interfaces)%list,
     add_events w (map (λ i, GetNetwork (net_id i)) interfaces)).
Proof.
  revert acc w. induction interfaces as [|i l IH]; intros acc w Hall; simpl.
  - unfold ret, add_events. rewrite !app_nil_r. by destruct w.
  - apply Forall_cons in Hall as [[n Hn] Hall].
    unfold bind at 1. rewrite (get_network_found _ _ _ Hn).
    unfold bind at 1. rewrite is_legacy_network_object.
    rewrite IH by exact Hall. simpl. rewrite Hn.
    unfold add_events; simpl. f_equal; [|by rewrite <- app_assoc].
    destruct (is_midonet n); simpl; by rewrite <- ?app_assoc, ?app_nil_r.
Qed.

Lemma legacy_networks_loop_dangling interfaces acc w :
  Exists (λ i, lookup_network (net_id i) (cloud w) = None) interfaces →
  result (legacy_networks_loop interfaces acc) w = inl NotFoundException.
Proof.
  revert acc w. induction interfaces as [|i l IH]; intros acc w Hex.
  { by apply Exists_nil in Hex. }
  simpl. unfold result, bind at 1.
  destruct (lookup_network (net_id i) (cloud w)) as [n|] eqn:Hn.
  - rewrite (get_network_found _ _ _ Hn). unfold bind at 1.
    rewrite is_legacy_network_object.
    apply Exists_cons in Hex as [Hex|Hex]; [congruence|].
    apply (IH _ (add_events w [GetNetwork (net_id i)])). exact Hex.
  - by rewrite (get_network_missing _ _ Hn).
Qed.

Lemma legacy_names_nil c interfaces :
  legacy_names c interfaces = [] ↔
  ∀ i n, i ∈ interfaces → lookup_network (net_id i) c = Some n → is_midonet n = false.
Proof.
  induction interfaces as [|i l IH]; simpl.
  - split; [|done]. intros _ i n Hi. by apply elem_of_nil in Hi.
  - rewrite app_nil, IH. split.
    + intros [Hi Hl] j n [->|Hj]%elem_of_cons Hn; [|by eapply Hl].
      rewrite Hn in Hi. by destruct (is_midonet n).
    + intros H. split.
      * destruct (lookup_network (net_id i) c) as [n|] eqn:Hn; [|done].
        rewrite (H i n); [done|by left|done].
      * intros j n Hj. apply H. by right.
Qed.

Lemma computed_recommendation_server s w :
  computed_recommendation (RServer s) w
  = match result (PrettyServer_get_recommendation (RServer s)) w with
    | inl e => inl e
    | inr rec => inr rec
    end.
Proof.
  unfold computed_recommendation, _resource_to_prettyresource, result; simpl.
  destruct query_map_known as (_ & _ & _ & ->); simpl.
  unfold PrettyServer, PrettyResource_init, bind.
  by destruct (PrettyServer_get_recommendation (RServer s) w) as [[e|rec] w'].
Qed.

Lemma server_rule_unfold s w :
  result (PrettyServer_get_recommendation (RServer s)) w
  = match result (legacy_networks_loop (select_interfaces s (cloud w)) [])
            (add_events w [ListServerInterfaces (server_id s)]) with
    | inl e => inl e
    | inr [] => inr None
    | inr (_ :: _) => inr (Some "Switch to modern network")
    end.
Proof.
  unfold result, PrettyServer_get_recommendation, py_list, conn.server_interfaces,
    bind at 1 2 3, log, get_cloud, ret at 1; simpl.
  unfold bind, add_events.
  destruct (legacy_networks_loop _ _ _) as [[e|[|x l]] w']; reflexivity.
Qed.

(** X6. For a server whose interfaces are all on networks that exist, the
    recommendation is "Switch to modern network" when at least one
    interface is on a legacy network, and nothing when none is (in
    particular when the server has no interface). *)
Theorem server_recommendation (s : Server) (w : World) :
  Forall (λ i, is_Some (lookup_network (net_id i) (cloud w)))
         (select_interfaces s (cloud w)) →
  ((∃ i n, i ∈ select_interfaces s (cloud w)
           ∧ lookup_network (net_id i) (cloud w) = Some n
           ∧ provider_network_type n = Some "midonet") →
   computed_recommendation (RServer s) w = inr (Some "Switch to modern network"))
  ∧ ((∀ i n, i ∈ select_interfaces s (cloud w) →
             lookup_network (net_id i) (cloud w) = Some n →
             provider_network_type n ≠ Some "midonet") →
     computed_recommendation (RServer s) w = inr None).
Proof.
  intros Hall. rewrite computed_recommendation_server, server_rule_unfold.
  unfold result. rewrite legacy_networks_loop_run by exact Hall. simpl.
  destruct (legacy_names (cloud w) (select_interfaces s (cloud w))) as [|x l] eqn:Hl.
  - split; [|done]. intros (i & n & Hi & Hn & Hm).
    apply is_midonet_true in Hm.
    rewrite (proj1 (legacy_names_nil _ _) Hl i n Hi Hn) in Hm. discriminate.
  - split; [done|]. intros Hnone.
    assert (legacy_names (cloud w) (select_interfaces s (cloud w)) = []); [|congruence].
    apply legacy_names_nil. intros i n Hi Hn. apply is_midonet_false. by eapply Hnone.
Qed.

(** X6 on the dual-homed server, and on the server with one modern
    interface. *)
Lemma server_recommendation_witness :
  computed_recommendation (RServer {| server_id := "s1"; server_name := "web" |})
    (fresh Variants.dual_homed_cloud) = inr (Some "Switch to modern network")
  ∧ computed_recommendation (RServer {| server_id := "s1"; server_name := "web" |})
      (fresh Samples.modern_cloud) = inr None.
Proof.
  split.
  - apply (server_recommendation _ (fresh Variants.dual_homed_cloud)).
    + repeat constructor; by eexists.
    + exists {| si_server_id := "s1"; net_id := "n1" |}, (Samples.private "n1" "midonet").
      split; [|by split]. apply elem_of_cons; right. apply elem_of_cons; by left.
  - apply (server_recommendation _ (fresh Samples.modern_cloud)).
    + repeat constructor; by eexists.
    + intros i n Hi. apply elem_of_cons in Hi as [->|Hi]; [|by apply elem_of_nil in Hi].
      intros [= <-]. discriminate.
Defined.

(** X7. A reference to a network that does not exist makes the
    classification raise [NotFoundException]: the floating network of a
    floating IP, the gateway network of a router that has interface ports,
    the network of any interface of a server. *)
Theorem classification_dangling_network (w : World) :
  (∀ f, lookup_network (floating_network_id f) (cloud w) = None →
        computed_recommendation (RFloatingIP f) w = inl NotFoundException)
  ∧ (∀ r g, router_interfaces r (cloud w) ≠ [] →
            external_gateway_info r = Some g →
            lookup_network (gw_network_id g) (cloud w) = None →
            computed_recommendation (RRouter r) w = inl NotFoundException)
  ∧ (∀ s i, i ∈ select_interfaces s (cloud w) →
            lookup_network (net_id i) (cloud w) = None →
            computed_recommendation (RServer s) w = inl NotFoundException).
Proof.
  split; [|split].
  - intros f Hf. by rewrite computed_recommendation_fip, fip_rule_run, Hf.
  - intros r g Hi Hg Hn. rewrite computed_recommendation_router, router_rule_run, Hg, Hn.
    by destruct (router_interfaces r (cloud w)).
  - intros s i Hi Hn. rewrite computed_recommendation_server, server_rule_unfold.
    rewrite legacy_networks_loop_dangling; [done|].
    apply Exists_exists. by exists i.
Qed.

(** X7 on the cloud whose floating networks are gone. *)
Lemma classification_dangling_network_witness :
  computed_recommendation (RFloatingIP Samples.fip_unused) (fresh Variants.dangling_cloud)
    = inl NotFoundException
  ∧ computed_recommendation (RRouter Samples.rt_old) (fresh Variants.dangling_cloud)
    = inl NotFoundException
  ∧ computed_recommendation (RServer {| server_id := "s1"; server_name := "web" |})
      (fresh Variants.dangling_cloud) = inl NotFoundException.
Proof.
  pose (w := fresh Variants.dangling_cloud).
  split; [|split].
  - apply (proj1 (classification_dangling_network w)). reflexivity.
  - apply (proj1 (proj2 (classification_dangling_network w)) _
             {| gw_network_id := "ext-mido" |}); [discriminate|reflexivity|reflexivity].
  - apply (proj2 (proj2 (classification_dangling_network w)) _
             {| si_server_id := "s1"; net_id := "gone" |}); [|reflexivity].
    apply elem_of_cons; by left.
Defined.

(** ** Rows *)

(** A comprehension that returns has one result per element, each
    returned by [f] on that element. *)
Lemma traverse_returns {A B} (f : A → M B) (l : list A) w ys w' :
  traverse f l w = (inr ys, w') →
  Forall2 (λ x y, ∃ w1 w2, f x w1 = (inr y, w2)) l ys.
Proof.
  revert w ys. induction l as [|x l IH]; intros w ys; simpl.
  - unfold ret. intros [= <- <-]. constructor.
  - unfold bind at 1. destruct (f x w) as [[e|y] w1] eqn:Hx; [discriminate|].
    unfold bind at 1. destruct (traverse f l w1) as [[e|ys'] w2] eqn:Hl; [discriminate|].
    unfold ret. intros [= <- <-]. constructor; [eauto|by eapply IH].
Qed.

Definition type_labels : list string := ["Floatingip"; "Network"; "Router"; "Server"].

Lemma query_map_recognised key cls :
  _query_map !! key = Some cls → key ∈ recognised_keys.
Proof.
  intros H. unfold recognised_keys.
  destruct (decide (key = "floatingip")) as [->|H1]; [by repeat constructor|].
  destruct (decide (key = "network")) as [->|H2]; [by repeat constructor|].
  destruct (decide (key = "router")) as [->|H3]; [by repeat constructor|].
  destruct (decide (key = "server")) as [->|H4]; [by repeat constructor|].
  by rewrite query_map_unknown in H.
Qed.

Lemma prettyresource_fields (o : pyobj) (w w' : World) (p : PrettyResource) :
  _resource_to_prettyresource o w = (inr p, w') →
  ∃ r, o = PyResource r
       ∧ resource_key r ∈ recognised_keys
       ∧ obj p = r
       ∧ type p = capitalize (resource_key r) ∧ type p ∈ type_labels
       ∧ id p = resource_id r ∧ name p = resource_name r.
Proof.
  unfold _resource_to_prettyresource. destruct o as [r|t]; [|discriminate].
  destruct (_query_map !! resource_key r) as [cls|] eqn:Hk; [|discriminate].
  apply query_map_recognised in Hk.
  assert (Hinit : ∀ rule, PrettyResource_init rule (PyResource r) w = (inr p, w') →
            obj p = r ∧ type p = capitalize (resource_key r)
            ∧ id p = resource_id r ∧ name p = resource_name r).
  { intros rule. unfold PrettyResource_init, bind.
    destruct (rule r w) as [[e|rec] w1]; [discriminate|]. by intros [= <- <-]. }
  intros H.
  assert (Hp : obj p = r ∧ type p = capitalize (resource_key r)
               ∧ id p = resource_id r ∧ name p = resource_name r).
  { unfold globals in H.
    repeat (match type of H with context [String.eqb cls ?s] =>
              destruct (String.eqb cls s) end);
      try discriminate; by eapply Hinit. }
  destruct Hp as (Ho & Ht & Hi & Hn). exists r. repeat split; try done.
  rewrite Ht. unfold recognised_keys, type_labels in *.
  repeat (apply elem_of_cons in Hk as [->|Hk]; [simpl; by repeat constructor|]).
  by apply elem_of_nil in Hk.
Qed.


(** X8. When the classification of an object returns, the object was a
    Resource with one of the four keys, and the row names it: its type is
    the capitalised key (one of the four labels), its id and name are the
    resource's. *)
Theorem prettyresource_names_resource (o : pyobj) (w w' : World) (p : PrettyResource) :
  _resource_to_prettyresource o w = (inr p, w') →
  ∃ r, o = PyResource r
       ∧ resource_key r ∈ recognised_keys
       ∧ obj p = r
       ∧ type p = capitalize (resource_key r) ∧ type p ∈ type_labels
       ∧ id p = resource_id r ∧ name p = resource_name r.
Proof. apply prettyresource_fields. Qed.

(** X8 on a router of the sample cloud. *)
Lemma prettyresource_names_resource_witness :
  ∃ p w', _resource_to_prettyresource (PyResource (RRouter Samples.rt_idle))
            (fresh Samples.modern_cloud) = (inr p, w')
          ∧ type p = "Router" ∧ id p = "rt2" ∧ name p = "idle".
Proof.
  destruct (_resource_to_prettyresource (PyResource (RRouter Samples.rt_idle))
              (fresh Samples.modern_cloud)) as [[e|p] w'] eqn:H;
    [by vm_compute in H|].
  exists p, w'. split; [done|].
  destruct (prettyresource_names_resource _ _ _ _ H) as (r & [= <-] & _ & _ & Ht & _ & Hi & Hn).
  done.
Defined.

Lemma truthy_or_empty rec : truthy rec = true → or_empty rec ≠ "".
Proof.
  destruct rec as [s|]; simpl; [|done].
  intros H%negb_true_iff. by apply String.eqb_neq.
Qed.

(** ** The report *)

(** The computation sees the same cloud and has printed nothing. *)
Definition same_view (w w' : World) : Prop :=
  cloud w' = cloud w ∧ stdout w' = stdout w.

Lemma same_view_refl w : same_view w w.
Proof. by split. Qed.

Lemma same_view_trans w1 w2 w3 : same_view w1 w2 → same_view w2 w3 → same_view w1 w3.
Proof. intros [? ?] [? ?]. split; congruence. Qed.

Lemma same_view_log e : respects same_view (log e).
Proof. intros w. by split. Qed.

(** The classification layer prints nothing and leaves the cloud alone. *)
Lemma quiet_rows {A} (inj : A → Resource) (e : event) (sel : Cloud → list A) all :
  respects same_view
    (_resources_to_prettyrows
       (as_objects inj (log e ;;; c <- get_cloud ;; ret (sel c))) all).
Proof.
  apply keeps_listing; [apply same_view_refl|apply same_view_trans|apply same_view_log].
Qed.

Lemma quiet_rows_run {A} (inj : A → Resource) (e : event) (sel : Cloud → list A) all w :
  ∃ r w', _resources_to_prettyrows
            (as_objects inj (log e ;;; c <- get_cloud ;; ret (sel c))) all w = (r, w')
          ∧ cloud w' = cloud w ∧ stdout w' = stdout w.
Proof.
  destruct (quiet_rows inj e sel all w) as [Hc Hs]. unfold after in *.
  destruct (_resources_to_prettyrows _ _ w) as [r w']. by exists r, w'.
Qed.

(** The summary line of the report, by project mode and rows. *)
Definition check_summary (project_name : string) (legacy : bool) (rows : list (list string))
  : string :=
  match rows, legacy with
  | [], false => MSG_CONGRATULATIONS
  | [], true => "Project " +:+ project_name +:+ " needs to switch to modern networking."
  | _ :: _, true =>
      ("Project " +:+ project_name +:+ " needs to switch to modern networking.")
      +:+ " The following resources needs to be migrated:"
  | _ :: _, false =>
      ("Project " +:+ project_name +:+ " is already using modern networking.")
      +:+ " The following resources needs to be migrated:"
  end.

Lemma quiet_listings all w :
  (∀ q, ∃ r w', _resources_to_prettyrows (as_objects RNetwork (conn.networks q)) all w
                = (r, w') ∧ cloud w' = cloud w ∧ stdout w' = stdout w)
  ∧ (∃ r w', _resources_to_prettyrows (as_objects RRouter conn.routers) all w = (r, w')
             ∧ cloud w' = cloud w ∧ stdout w' = stdout w)
  ∧ (∃ r w', _resources_to_prettyrows (as_objects RFloatingIP conn.ips) all w = (r, w')
             ∧ cloud w' = cloud w ∧ stdout w' = stdout w)
  ∧ (∃ r w', _resources_to_prettyrows (as_objects RServer conn.servers) all w = (r, w')
             ∧ cloud w' = cloud w ∧ stdout w' = stdout w).
Proof.
  split; [|split; [|split]].
  - intros q. apply (quiet_rows_run RNetwork (ListNetworks q) (select_networks q)).
  - apply (quiet_rows_run RRouter ListRouters routers_of).
  - apply (quiet_rows_run RFloatingIP ListIps ips_of).
  - apply (quiet_rows_run RServer ListServers servers_of).
Qed.

(** The four listings of [check], in order. *)
Definition listing (k : nat) (c : Cloud) (all_resources : bool) : M (list (list string)) :=
  match k with
  | 0 => _resources_to_prettyrows
           (as_objects RNetwork (conn.networks (project_query c))) all_resources
  | 1 => _resources_to_prettyrows (as_objects RRouter conn.routers) all_resources
  | 2 => _resources_to_prettyrows (as_objects RFloatingIP conn.ips) all_resources
  | _ => _resources_to_prettyrows (as_objects RServer conn.servers) all_resources
  end.

Lemma quiet_listing k c all w :
  ∃ r w', listing k c all w = (r, w') ∧ cloud w' = cloud w ∧ stdout w' = stdout w.
Proof.
  destruct (quiet_listings all w) as (H0 & H1 & H2 & H3).
  destruct k as [|[|[|k]]]; simpl; auto.
Qed.

(** What [check] prints after the rows are collected. *)
Definition check_output (c : Cloud) (rows : list (list string)) : list Output :=
  ([Line ("Project: " +:+ project_name (project c));
    Line ("Networking: " +:+ declared_mode c);
    Line "Checking resources. This might take a while...";
    Line (check_summary (project_name (project c)) (is_legacy c) rows)]
   ++ match rows with [] => [] | _ :: _ => [Table header rows] end)%list.

(** [check], listing by listing: the worlds in which the four listings
    start see the cloud of [w]; the first listing that raises ends the
    run, and when all four return the report is printed. *)
Lemma check_run (all_resources : bool) (w : World) :
  ∃ w0 w1 w2 w3 r w',
    check (CheckArgs all_resources) w = (r, w')
    ∧ cloud w' = cloud w
    ∧ cloud w0 = cloud w ∧ cloud w1 = cloud w ∧ cloud w2 = cloud w ∧ cloud w3 = cloud w
    ∧ (r = inr () →
       ∃ rows, stdout w' = (stdout w ++ check_output (cloud w) rows)%list)
    ∧ (∀ rows0 rows1 rows2 rows3,
         result (listing 0 (cloud w) all_resources) w0 = inr rows0 →
         result (listing 1 (cloud w) all_resources) w1 = inr rows1 →
         result (listing 2 (cloud w) all_resources) w2 = inr rows2 →
         result (listing 3 (cloud w) all_resources) w3 = inr rows3 →
         r = inr ()
         ∧ stdout w'
           = (stdout w
              ++ check_output (cloud w) (rows0 ++ rows1 ++ rows2 ++ rows3))%list).
Proof.
  unfold check.
  cbv beta iota zeta delta
    [bind ret log print print_table get_cloud args_all_resources conn.get_project
     is_legacy_project]; simpl.
  match goal with
  | |- context [_resources_to_prettyrows _ _ ?x] => remember x as w0 eqn:Hw0
  end.
  pose proof (f_equal cloud Hw0) as C0. pose proof (f_equal stdout Hw0) as S0.
  simpl in C0, S0. clear Hw0.
  change (_resources_to_prettyrows
            (as_objects RNetwork (conn.networks (project_query (cloud w)))) all_resources)
    with (listing 0 (cloud w) all_resources).
  change (_resources_to_prettyrows (as_objects RRouter conn.routers) all_resources)
    with (listing 1 (cloud w) all_resources).
  change (_resources_to_prettyrows (as_objects RFloatingIP conn.ips) all_resources)
    with (listing 2 (cloud w) all_resources).
  change (_resources_to_prettyrows (as_objects RServer conn.servers) all_resources)
    with (listing 3 (cloud w) all_resources).
  unfold result.
  destruct (quiet_listing 0 (cloud w) all_resources w0) as (r0 & w1 & H0 & C1 & S1).
  rewrite H0. destruct r0 as [e|rows0].
  { exists w0, w0, w0, w0. eexists _, _. split; [reflexivity|].
    repeat (split; [congruence|]). intros ? ? ? ?. by rewrite H0. }
  destruct (quiet_listing 1 (cloud w) all_resources w1) as (r1 & w2 & H1 & C2 & S2).
  rewrite H1. destruct r1 as [e|rows1].
  { exists w0, w1, w0, w0. eexists _, _. split; [reflexivity|].
    repeat (split; [congruence|]). intros ? ? ? ? _. by rewrite H1. }
  destruct (quiet_listing 2 (cloud w) all_resources w2) as (r2 & w3 & H2 & C3 & S3).
  rewrite H2. destruct r2 as [e|rows2].
  { exists w0, w1, w2, w0. eexists _, _. split; [reflexivity|].
    repeat (split; [congruence|]). intros ? ? ? ? _ _. by rewrite H2. }
  destruct (quiet_listing 3 (cloud w) all_resources w3) as (r3 & w4 & H3 & C4 & S4).
  rewrite H3. destruct r3 as [e|rows3].
  { exists w0, w1, w2, w3. eexists _, _. split; [reflexivity|].
    repeat (split; [congruence|]). intros ? ? ? ? _ _ _. by rewrite H3. }
  assert (C : cloud w4 = cloud w) by congruence.
  assert (S : stdout w4 = stdout w0) by congruence.
  rewrite S0 in S. clear S0 S1 S2 S3 S4.
  exists w0, w1, w2, w3.
  match goal with
  | |- ∃ r w', ?t = (r, w') ∧ _ =>
      assert (Hout : ∃ r w',
        t = (r, w') ∧ r = inr () ∧ cloud w' = cloud w
        ∧ stdout w' = (stdout w ++ check_output (cloud w)
                                     (rows0 ++ rows1 ++ rows2 ++ rows3))%list)
  end.
  { rewrite C. unfold check_output, declared_mode, is_legacy.
    set (rows := (rows0 ++ rows1 ++ rows2 ++ rows3)%list).
    destruct rows as [|row rows'] eqn:Hrows; simpl;
      destruct (bool_decide (TAG_LEGACY ∈ project_tags (project (cloud w)))) eqn:E; simpl;
      rewrite ?C, ?E; simpl;
      (eexists _, _; split; [reflexivity|]; simpl; split; [done|]; split; [done|]);
      rewrite S; simpl; rewrite <- ?app_assoc; reflexivity. }
  destruct Hout as (r & w' & -> & -> & Cw & Sw). exists (inr ()), w'.
  split; [done|]. repeat (split; [congruence|]). split; [by eauto|].
  intros ? ? ? ?. rewrite H0, H1, H2, H3; simpl. by intros [= <-] [= <-] [= <-] [= <-].
Qed.

(** The resources that [check] lists on a cloud. *)
Definition listed (k : nat) (c : Cloud) : list Resource :=
  match k with
  | 0 => map RNetwork (select_networks (project_query c) c)
  | 1 => map RRouter (routers_of c)
  | 2 => map RFloatingIP (ips_of c)
  | _ => map RServer (servers_of c)
  end.

Lemma listing_unfold k c w :
  cloud w = c →
  ∃ e, ∀ all,
    listing k c all w
    = _resources_to_prettyrows (iter_list (map PyResource (listed k c))) all
        (add_events w [e]).
Proof.
  intros <-.
  destruct k as [|[|[|k]]]; eexists; intros all;
    unfold listing, listed, _resources_to_prettyrows, as_objects, iter_list,
      conn.networks, conn.routers, conn.ips, conn.servers;
    cbv beta iota zeta delta [bind ret log get_cloud]; simpl;
    rewrite <- list_fmap_compose; reflexivity.
Qed.

Lemma computed_none o w :
  computed_recommendation o w = inr None ↔
  ∃ p w', _resource_to_prettyresource (PyResource o) w = (inr p, w')
          ∧ recommendation p = None.
Proof.
  unfold computed_recommendation, result.
  destruct (_resource_to_prettyresource (PyResource o) w) as [[e|p] w']; simpl.
  - split; [done|]. by intros (? & ? & [=] & _).
  - split.
    + intros [= H]. by exists p, w'.
    + by intros (? & ? & [= <- <-] & ->).
Qed.

(** Resources without recommendation give no row when not all resources
    are asked for. *)
Lemma rows_nothing (os : list Resource) (w : World) :
  (∀ o, o ∈ os → ∀ w', cloud w' = cloud w → computed_recommendation o w' = inr None) →
  result (_resources_to_prettyrows (iter_list (map PyResource os)) false) w = inr [].
Proof.
  intros Hnone.
  assert (Ht : ∃ ps w', traverse _resource_to_prettyresource (map PyResource os) w
                        = (inr ps, w')
                        ∧ Forall (λ p, recommendation p = None) ps).
  { revert w Hnone. induction os as [|o os IH]; intros w Hnone; cbn [traverse List.map].
    - by exists [], w.
    - destruct (proj1 (computed_none o w) (Hnone o ltac:(by left) w eq_refl))
        as (p & w1 & Hp & Hr).
      assert (Hc : cloud w1 = cloud w).
      { pose proof (keeps_resource_to_prettyresource same_view same_view_refl
                      same_view_trans same_view_log (PyResource o) w) as [Hc _].
        unfold after in Hc. by rewrite Hp in Hc. }
      destruct (IH w1) as (ps & w2 & Hps & Hall).
      { intros o' Ho' w' Hw'. apply Hnone; [by right|congruence]. }
      exists (p :: ps), w2. unfold bind. rewrite Hp, Hps. unfold ret.
      split; [reflexivity|constructor; [exact Hr|exact Hall]]. }
  destruct Ht as (ps & w' & Ht & Hall).
  unfold result, _resources_to_prettyrows, iter_list, bind at 1, ret at 1.
  unfold bind. rewrite Ht. unfold ret; simpl. f_equal.
  clear Ht. induction Hall as [|p ps Hp _ IH]; [done|].
  simpl. rewrite Hp. simpl. exact IH.
Qed.

(** X11. On a project without the legacy tag, when none of the resources
    that [check] lists gets a recommendation, [check] (without
    [--all-resources]) returns normally and prints the banner followed by
    the congratulation; no table is printed. *)
Theorem check_nothing_to_migrate (w : World) :
  TAG_LEGACY ∉ project_tags (project (cloud w)) →
  (∀ k o, o ∈ listed k (cloud w) →
          ∀ w', cloud w' = cloud w → computed_recommendation o w' = inr None) →
  result (check (CheckArgs false)) w = inr ()
  ∧ stdout (after (check (CheckArgs false)) w)
    = (stdout w
       ++ [Line ("Project: " +:+ project_name (project (cloud w)));
           Line "Networking: modern";
           Line "Checking resources. This might take a while...";
           Line MSG_CONGRATULATIONS])%list.
Proof.
  intros Htag Hnone.
  assert (Hl : is_legacy (cloud w) = false) by (by apply bool_decide_eq_false).
  destruct (check_run false w)
    as (w0 & w1 & w2 & w3 & r & w' & Hr & _ & C0 & C1 & C2 & C3 & _ & Hout).
  assert (Hk : ∀ k wk, cloud wk = cloud w →
                 result (listing k (cloud w) false) wk = inr []).
  { intros k wk Hc. destruct (listing_unfold k (cloud w) wk Hc) as (e & He).
    unfold result. rewrite He. apply rows_nothing.
    intros o Ho w'' Hw''. apply (Hnone k); [done|]. by rewrite Hw''. }
  destruct (Hout [] [] [] [] (Hk 0 w0 C0) (Hk 1 w1 C1) (Hk 2 w2 C2) (Hk 3 w3 C3))
    as [-> Hs].
  unfold result, after. rewrite Hr; simpl. split; [done|].
  rewrite Hs. unfold check_output, declared_mode. by rewrite Hl.
Qed.

Lemma computed_recommendation_network n w :
  computed_recommendation (RNetwork n) w
  = inr (if is_midonet n then Some "Replace" else None).
Proof.
  unfold computed_recommendation, _resource_to_prettyresource, result; simpl.
  destruct query_map_known as (_ & -> & _); simpl.
  unfold PrettyNetwork, PrettyResource_init, PrettyNetwork_get_recommendation, bind.
  rewrite is_legacy_network_object. by destruct (is_midonet n).
Qed.

(** X11 on the migrated cloud. *)
Lemma check_nothing_to_migrate_witness :
  (TAG_LEGACY ∉ project_tags (project (cloud (fresh Variants.migrated_cloud))))
  ∧ stdout (after (check (CheckArgs false)) (fresh Variants.migrated_cloud))
    = [Line "Project: demo"; Line "Networking: modern";
       Line "Checking resources. This might take a while...";
       Line MSG_CONGRATULATIONS].
Proof.
  assert (H1 : TAG_LEGACY ∉ project_tags (project (cloud (fresh Variants.migrated_cloud)))).
  { simpl. intros H%elem_of_singleton. discriminate. }
  split; [exact H1|].
  apply (proj2 (check_nothing_to_migrate (fresh Variants.migrated_cloud) H1
    ltac:(
      intros k o Ho w' Hc; simpl in Hc;
      destruct k as [|[|[|k]]]; simpl in Ho;
      (apply elem_of_cons in Ho as [->|Ho]; [|by apply elem_of_nil in Ho]);
      [ by rewrite computed_recommendation_network
      | by rewrite computed_recommendation_router, router_rule_run, Hc
      | by rewrite computed_recommendation_fip, fip_rule_run, Hc
      | rewrite computed_recommendation_server, server_rule_unfold; unfold result;
        rewrite legacy_networks_loop_run;
        [simpl; by rewrite Hc | simpl; rewrite Hc; repeat constructor; by eexists] ]))).
Defined.

(** X12. Whatever its arguments and however it ends, [check] leaves the
    cloud as it was and makes read requests only: every event it adds to
    the trace is its own entry or a query, so it never writes a tag and
    never enters [switch] or [check_sanity]. *)
Theorem check_never_writes (args : Namespace) (w : World) :
  cloud (after (check args) w) = cloud w
  ∧ ∃ evs, trace (after (check args) w) = (trace w ++ evs)%list
           ∧ Forall (λ e, e = Call "check" ∨ is_query e = true) evs
           ∧ no_mutation evs
           ∧ entered "switch" evs = false ∧ entered "check_sanity" evs = false.
Proof.
  pose (P := λ e, e = Call "check" ∨ is_query e = true).
  destruct (reads_check P ltac:(by right) args ltac:(by left) w) as [Hc (evs & Ht & HP)].
  split; [exact Hc|]. exists evs. split; [exact Ht|]. split; [exact HP|].
  split; [|split].
  - eapply Forall_impl; [exact HP|]. intros e [->|He]; [done|].
    unfold is_query in He. by destruct e.
  - apply entered_false. intros Hin. rewrite Forall_forall in HP.
    by destruct (HP _ Hin).
  - apply entered_false. intros Hin. rewrite Forall_forall in HP.
    by destruct (HP _ Hin).
Qed.

(** ** More on switch *)

(** X13. Without the role, [switch] prints its banner and the privilege
    message and returns: the project is not even fetched, and the cloud
    is unchanged. *)
Theorem switch_without_role (n : string) (w : World) :
  result is_tenant_manager w = inr false →
  switch (SwitchArgs n) w
  = (inr (),
     {| cloud := cloud w;
        stdout := (stdout w ++ [Line "Switching project networking";
                                Line MSG_NO_PRIVILEGE_SWITCH])%list;
        trace := (trace w ++ Call "switch" :: tm_events (cloud w))%list |}).
Proof.
  intros Htm%holds_role_spec. rewrite (switch_unprivileged _ _ Htm).
  unfold add_output, add_events; simpl. by rewrite <- app_assoc.
Qed.

(** X13 for the user without the role. *)
Lemma switch_without_role_witness :
  result is_tenant_manager (fresh Samples.unprivileged_cloud) = inr false
  ∧ stdout (after (switch (SwitchArgs "legacy")) (fresh Samples.unprivileged_cloud))
    = [Line "Switching project networking"; Line MSG_NO_PRIVILEGE_SWITCH].
Proof.
  assert (H : result is_tenant_manager (fresh Samples.unprivileged_cloud) = inr false)
    by (vm_compute; reflexivity).
  split; [exact H|]. unfold after. by rewrite (switch_without_role "legacy" _ H).
Defined.

Lemma declared_mode_legacy c : declared_mode c = NAME_MIDONET ↔ is_legacy c = true.
Proof. unfold declared_mode. by destruct (is_legacy c). Qed.

Lemma declared_mode_modern c : declared_mode c = NAME_OVN ↔ is_legacy c = false.
Proof. unfold declared_mode. by destruct (is_legacy c). Qed.

Lemma is_legacy_with_tags c t : is_legacy (with_tags c t) = bool_decide (TAG_LEGACY ∈ t).
Proof. reflexivity. Qed.

(** X14. With the role, [switch] to ['legacy'] or ['modern'] returns
    normally and leaves the project declaring that mode.  When the project
    was in the other mode, the only write is the one tag request (adding
    the legacy tag for ['legacy'], removing it for ['modern']), and the
    banner is followed by the confirmation and the propagation notice. *)
Theorem switch_reaches_mode (mode : string) (w : World) :
  result is_tenant_manager w = inr true →
  mode = NAME_MIDONET ∨ mode = NAME_OVN →
  result (switch (SwitchArgs mode)) w = inr ()
  ∧ declared_mode (cloud (after (switch (SwitchArgs mode)) w)) = mode
  ∧ (declared_mode (cloud w) ≠ mode →
     (∃ notice,
        stdout (after (switch (SwitchArgs mode)) w)
        = (stdout w ++ [Line "Switching project networking";
                        Line ("Project set to " +:+ mode +:+ " networking.");
                        Line notice])%list)
     ∧ ∃ evs, trace (after (switch (SwitchArgs mode)) w) = (trace w ++ evs)%list
              ∧ List.filter is_mutation evs
                = [if String.eqb mode NAME_MIDONET
                   then AddTag TAG_LEGACY else RemoveTag TAG_LEGACY]).
Proof.
  intros Htm%holds_role_spec Hmode. unfold result, after.
  rewrite (switch_privileged _ _ Htm).
  assert (Hf : List.filter is_mutation (tm_events (cloud w)) = []).
  { pose proof (no_mutation_tm (cloud w)) as H. induction H as [|e l He _ IH]; [done|].
    simpl. by rewrite He. }
  destruct Hmode as [-> | ->]; simpl; destruct (is_legacy (cloud w)) eqn:Hl; simpl.
  - split; [done|]. split; [by apply declared_mode_legacy|].
    intros H. by apply declared_mode_legacy in Hl.
  - split; [done|]. split.
    { apply declared_mode_legacy. rewrite is_legacy_with_tags.
      apply bool_decide_eq_true. apply elem_of_union; right. by apply elem_of_singleton. }
    intros _. split; [eexists; by rewrite <- !app_assoc|].
    eexists. split; [by rewrite <- !app_assoc|].
    simpl. rewrite !List.filter_app, Hf. reflexivity.
  - split; [done|]. split.
    { apply declared_mode_modern. rewrite is_legacy_with_tags.
      apply bool_decide_eq_false. intros [_ H]%elem_of_difference. apply H.
      by apply elem_of_singleton. }
    intros _. split; [eexists; by rewrite <- !app_assoc|].
    eexists. split; [by rewrite <- !app_assoc|].
    simpl. rewrite !List.filter_app, Hf. reflexivity.
  - split; [done|]. split; [by apply declared_mode_modern|].
    intros H. by apply declared_mode_modern in Hl.
Qed.

(** X14 for a switch of the sample project to legacy networking. *)
Lemma switch_reaches_mode_witness :
  result is_tenant_manager (fresh Samples.modern_cloud) = inr true
  ∧ declared_mode
      (cloud (after (switch (SwitchArgs "legacy")) (fresh Samples.modern_cloud)))
    = "legacy".
Proof.
  assert (H : result is_tenant_manager (fresh Samples.modern_cloud) = inr true)
    by (vm_compute; reflexivity).
  split; [exact H|].
  exact (proj1 (proj2 (switch_reaches_mode "legacy" _ H (or_introl eq_refl)))).
Defined.

(** X15. Whatever its arguments, whoever calls it and however it ends,
    [switch] changes nothing in the cloud but the tag set of the project,
    and in the tag set nothing but the legacy tag. *)
Theorem switch_only_touches_legacy_tag (args : Namespace) (w : World) :
  cloud (after (switch args) w)
  = with_tags (cloud w) (project_tags (project (cloud (after (switch args) w))))
  ∧ ∀ t, t ≠ TAG_LEGACY →
         (t ∈ project_tags (project (cloud (after (switch args) w)))
          ↔ t ∈ project_tags (project (cloud w))).
Proof.
  assert (Hsame : ∀ w', cloud w' = cloud w →
            cloud w' = with_tags (cloud w) (project_tags (project (cloud w')))
            ∧ ∀ t, t ≠ TAG_LEGACY →
                   (t ∈ project_tags (project (cloud w'))
                    ↔ t ∈ project_tags (project (cloud w)))).
  { intros w' ->. by rewrite with_tags_same. }
  destruct args as [b|n].
  { by apply Hsame. }
  unfold after. destruct (holds_role (cloud w)) eqn:Htm.
  - rewrite (switch_privileged _ _ Htm); simpl.
    destruct (String.eqb n NAME_MIDONET); [|destruct (String.eqb n NAME_OVN)];
      try destruct (is_legacy (cloud w)); simpl; try (by apply Hsame).
    + split; [done|]. intros t Ht. rewrite elem_of_union, elem_of_singleton. tauto.
    + split; [done|]. intros t Ht. rewrite elem_of_difference, elem_of_singleton. tauto.
  - rewrite (switch_unprivileged _ _ Htm). by apply Hsame.
Qed.

Lemma select_networks_with_tags q c t :
  select_networks q (with_tags c t) = select_networks q c.
Proof. reflexivity. Qed.

(** X16. A switch that changes the mode closes the gate: if [check_sanity]
    returned true and [switch] then moves the project to the other mode,
    the next [check_sanity] (the networks being as they were) returns
    false with the "recently switched" message, so the next run of [main]
    enters no command. *)
Theorem gate_closed_after_switch (mode : string) (w : World) :
  result check_sanity w = inr true →
  mode = NAME_MIDONET ∨ mode = NAME_OVN →
  declared_mode (cloud w) ≠ mode →
  let w1 := after (switch (SwitchArgs mode)) w in
  result check_sanity w1 = inr false
  ∧ stdout (after check_sanity w1) = (stdout w1 ++ [Line MSG_RECENTLY_SWITCHED])%list
  ∧ ∀ argv args, result (parse_args argv) w1 = inr args →
      main argv w1 = (inr (), after check_sanity w1).
Proof.
  intros Hs Hmode Hdiff w1.
  assert (Hrun := check_sanity_run w). unfold result in Hs. rewrite Hrun in Hs.
  simpl in Hs. destruct (holds_role (cloud w)) eqn:Htm; [|discriminate].
  destruct (select_networks floating_query (cloud w)) as [|n ns] eqn:Hn; [discriminate|].
  destruct (Bool.eqb (is_midonet n) (is_legacy (cloud w))) eqn:He; [|discriminate].
  apply Bool.eqb_prop in He.
  assert (Hc1 : ∃ t, cloud w1 = with_tags (cloud w) t
                     ∧ bool_decide (TAG_LEGACY ∈ t) = negb (is_legacy (cloud w))).
  { subst w1. destruct Hmode as [-> | ->].
    - assert (Hl : is_legacy (cloud w) = false).
      { destruct (is_legacy (cloud w)) eqn:E; [|done].
        by apply declared_mode_legacy in E. }
      rewrite (switch_legacy_cloud w Htm Hl). eexists. split; [reflexivity|].
      rewrite Hl. apply bool_decide_eq_true.
      apply elem_of_union; right. by apply elem_of_singleton.
    - assert (Hl : is_legacy (cloud w) = true).
      { destruct (is_legacy (cloud w)) eqn:E; [done|].
        by apply declared_mode_modern in E. }
      rewrite (switch_modern_cloud w Htm Hl). eexists. split; [reflexivity|].
      rewrite Hl. apply bool_decide_eq_false.
      intros [_ H]%elem_of_difference. apply H. by apply elem_of_singleton. }
  destruct Hc1 as (t & Hc1 & Ht).
  assert (Hs1 : check_sanity w1
                = (inr false,
                   add_output
                     (add_events
                        (add_events w1 (Call "check_sanity" :: tm_events (cloud w1)))
                        [ListNetworks floating_query;
                         GetProject (current_project_id (cloud w1))])
                     [Line MSG_RECENTLY_SWITCHED])).
  { rewrite check_sanity_run; simpl.
    rewrite Hc1 at 1. rewrite holds_role_with_tags, Htm.
    rewrite Hc1 at 1. rewrite select_networks_with_tags, Hn.
    rewrite Hc1 at 1. rewrite is_legacy_with_tags, Ht, He.
    by destruct (is_legacy (cloud w)). }
  split; [unfold result; by rewrite Hs1|].
  split; [unfold after; by rewrite Hs1|].
  intros argv args Hp. rewrite (main_run _ _ _ Hp). unfold after. by rewrite Hs1.
Qed.

(** X16 for a switch of the sample project to legacy networking, then
    [check]. *)
Lemma gate_closed_after_switch_witness :
  result check_sanity (fresh Samples.modern_cloud) = inr true
  ∧ declared_mode (cloud (fresh Samples.modern_cloud)) ≠ "legacy"
  ∧ result check_sanity
      (after (switch (SwitchArgs "legacy")) (fresh Samples.modern_cloud)) = inr false.
Proof.
  assert (H1 : result check_sanity (fresh Samples.modern_cloud) = inr true)
    by (vm_compute; reflexivity).
  assert (H2 : declared_mode (cloud (fresh Samples.modern_cloud)) ≠ "legacy")
    by (vm_compute; discriminate).
  split; [exact H1|]. split; [exact H2|].
  exact (proj1 (gate_closed_after_switch "legacy" _ H1 (or_introl eq_refl) H2)).
Defined.

(** ** Rows and the resources they come from *)

(** A comprehension over the classification that returns has classified
    every element, in order, each on the cloud it started with. *)
Lemma traverse_classified (items : list pyobj) (w w' : World) (ps : list PrettyResource) :
  traverse _resource_to_prettyresource items w = (inr ps, w') →
  Forall2 (λ o p, ∃ wa wb, cloud wa = cloud w
                           ∧ _resource_to_prettyresource o wa = (inr p, wb)) items ps.
Proof.
  revert w ps. induction items as [|o items IH]; intros w ps; cbn [traverse].
  - unfold ret. intros [= <- <-]. constructor.
  - unfold bind at 1.
    destruct (_resource_to_prettyresource o w) as [[e|p] w1] eqn:Ho; [discriminate|].
    unfold bind at 1.
    destruct (traverse _resource_to_prettyresource items w1) as [[e|ps'] w2] eqn:Hl;
      [discriminate|].
    unfold ret. intros [= <- <-].
    assert (Hc : cloud w1 = cloud w).
    { pose proof (keeps_resource_to_prettyresource same_view same_view_refl
                    same_view_trans same_view_log o w) as [Hc _].
      unfold after in Hc. by rewrite Ho in Hc. }
    constructor; [by exists w, w1|].
    eapply Forall2_impl; [by eapply IH|].
    intros o' p' (wa & wb & Hwa & Hp). exists wa, wb. split; [congruence|done].
Qed.

(** X9. When [_resources_to_prettyrows] returns, its rows are the rows of
    the listed objects, in order: every object is a Resource that was
    classified on the cloud of the listing, its row carries the
    capitalised key, the id and the name of that resource and the
    recommendation computed for it; all of these rows are returned when
    all resources are asked for, otherwise exactly those whose
    recommendation is not empty.  So every row has the four header
    columns, there is at most one row per resource, and exactly one with
    [all_resources]. *)
Theorem prettyrows_shape (g : generator pyobj) (all_resources : bool)
    (w w1 : World) (items : list pyobj) (rows : list (list string)) :
  g w = (inr items, w1) →
  result (_resources_to_prettyrows g all_resources) w = inr rows →
  (∃ ps,
     Forall2 (λ o p, ∃ r wa,
                o = PyResource r ∧ cloud wa = cloud w1
                ∧ computed_recommendation r wa = inr (recommendation p)
                ∧ type p = capitalize (resource_key r) ∧ type p ∈ type_labels
                ∧ id p = resource_id r ∧ name p = resource_name r) items ps
     ∧ rows = map (λ p, [type p; id p; name p; or_empty (recommendation p)])
                  (if all_resources then ps
                   else List.filter (λ p, truthy (recommendation p)) ps))
  ∧ Forall (λ row, ∃ t i n r, row = [t; i; n; r] ∧ t ∈ type_labels
                              ∧ (all_resources = false → r ≠ "")) rows
  ∧ (List.length rows ≤ List.length items)%nat
  ∧ (all_resources = true → List.length rows = List.length items).
Proof.
  intros Hg. unfold result, _resources_to_prettyrows, bind at 1. rewrite Hg.
  unfold bind.
  destruct (traverse _resource_to_prettyresource items w1) as [[e|ps] w2] eqn:Ht;
    [discriminate|].
  unfold ret; simpl. intros [= <-].
  apply traverse_classified in Ht.
  assert (Hrel : Forall2 (λ o p, ∃ r wa,
                o = PyResource r ∧ cloud wa = cloud w1
                ∧ computed_recommendation r wa = inr (recommendation p)
                ∧ type p = capitalize (resource_key r) ∧ type p ∈ type_labels
                ∧ id p = resource_id r ∧ name p = resource_name r) items ps).
  { eapply Forall2_impl; [exact Ht|].
    intros o p (wa & wb & Hc & Hp).
    destruct (prettyresource_fields _ _ _ _ Hp) as (r & -> & _ & _ & Hty & Hlab & Hid & Hn).
    exists r, wa. repeat split; try done.
    unfold computed_recommendation, result. by rewrite Hp. }
  assert (Hlen : List.length ps = List.length items)
    by (symmetry; by eapply Forall2_length).
  assert (Hps : Forall (λ p, type p ∈ type_labels) ps).
  { eapply Forall2_Forall_r; [exact Hrel|]. apply Forall_forall.
    by intros x _ p (r & wa & _ & _ & _ & _ & ? & _). }
  split; [exists ps; split; [exact Hrel|by destruct all_resources]|].
  destruct all_resources; simpl.
  - split; [|split; [|intros _]]; rewrite ?length_map; try lia.
    apply Forall_fmap. eapply Forall_impl; [exact Hps|].
    intros p Hp. simpl. by repeat eexists.
  - split; [|split; [|done]].
    + apply Forall_fmap. apply Forall_forall. intros p Hp.
      apply list_elem_of_In, filter_In in Hp as [Hp Htr]. apply list_elem_of_In in Hp.
      rewrite Forall_forall in Hps. simpl. repeat eexists; [by apply Hps|].
      intros _. by apply truthy_or_empty.
    + rewrite length_map, <- Hlen. apply List.filter_length_le.
Qed.

(** X9 on a list holding a legacy and a modern network, both reported. *)
Lemma prettyrows_shape_witness :
  let items := [PyResource (RNetwork (Samples.private "n1" "midonet"));
                PyResource (RNetwork (Samples.private "n2" "geneve"))] in
  let rows := [["Network"; "n1"; "private-n1"; "Replace"];
               ["Network"; "n2"; "private-n2"; ""]] in
  result (_resources_to_prettyrows (iter_list items) true) (fresh Samples.modern_cloud)
    = inr rows
  ∧ List.length rows = List.length items.
Proof.
  intros items rows.
  assert (H1 : iter_list items (fresh Samples.modern_cloud)
               = (inr items, fresh Samples.modern_cloud)) by reflexivity.
  assert (H2 : result (_resources_to_prettyrows (iter_list items) true)
                 (fresh Samples.modern_cloud) = inr rows) by (vm_compute; reflexivity).
  split; [exact H2|].
  exact (proj2 (proj2 (proj2 (prettyrows_shape _ _ _ _ _ _ H1 H2))) eq_refl).
Defined.

(** ** The report, listing by listing *)

Lemma run_eq {A} (m : M A) (w : World) : m w = (result m w, after m w).
Proof. unfold result, after. by destruct (m w). Qed.

Lemma quiet_listing_after k c all w :
  cloud (after (listing k c all) w) = cloud w
  ∧ stdout (after (listing k c all) w) = stdout w.
Proof.
  destruct (quiet_listing k c all w) as (r & w' & H & Hc & Hs).
  unfold after. by rewrite H.
Qed.

(** The lines that [check] prints before it lists anything. *)
Definition check_banner (c : Cloud) : list Output :=
  [Line ("Project: " +:+ project_name (project c));
   Line ("Networking: " +:+ declared_mode c);
   Line "Checking resources. This might take a while..."].

(** The world in which [check] starts listing. *)
Definition check_start (w : World) : World :=
  {| cloud := cloud w;
     stdout := (stdout w ++ check_banner (cloud w))%list;
     trace := (trace w ++ [Call "check";
                           GetProject (current_project_id (cloud w));
                           GetProject (current_project_id (cloud w))])%list |}.

(** [check] as seen from outside: the first listing that raises ends the
    run with the banner printed; when the four listings return, the
    summary and the table follow. *)
Lemma check_observed (all_resources : bool) (w : World) :
  let c := cloud w in
  let w0 := check_start w in
  let w1 := after (listing 0 c all_resources) w0 in
  let w2 := after (listing 1 c all_resources) w1 in
  let w3 := after (listing 2 c all_resources) w2 in
  cloud (after (check (CheckArgs all_resources)) w) = c
  ∧ (result (check (CheckArgs all_resources)) w,
     stdout (after (check (CheckArgs all_resources)) w))
    = match result (listing 0 c all_resources) w0 with
      | inl e => (inl e, stdout w0)
      | inr rows0 =>
      match result (listing 1 c all_resources) w1 with
      | inl e => (inl e, stdout w0)
      | inr rows1 =>
      match result (listing 2 c all_resources) w2 with
      | inl e => (inl e, stdout w0)
      | inr rows2 =>
      match result (listing 3 c all_resources) w3 with
      | inl e => (inl e, stdout w0)
      | inr rows3 =>
          (inr (),
           (stdout w ++ check_output c (rows0 ++ rows1 ++ rows2 ++ rows3))%list)
      end end end end.
Proof.
  intros c w0 w1 w2 w3.
  destruct (quiet_listing_after 0 c all_resources w0) as [C1 S1]. fold w1 in C1, S1.
  destruct (quiet_listing_after 1 c all_resources w1) as [C2 S2]. fold w2 in C2, S2.
  destruct (quiet_listing_after 2 c all_resources w2) as [C3 S3]. fold w3 in C3, S3.
  destruct (quiet_listing_after 3 c all_resources w3) as [C4 S4].
  set (w4 := after (listing 3 c all_resources) w3) in *.
  assert (C0 : cloud w0 = c) by reflexivity.
  assert (S0 : stdout w0 = (stdout w ++ check_banner c)%list) by reflexivity.
  unfold result at 1, after at 1 2, check.
  cbv beta iota zeta delta
    [bind ret log print print_table get_cloud args_all_resources conn.get_project
     is_legacy_project]; cbn [cloud stdout trace fst snd].
  match goal with
  | |- context [_resources_to_prettyrows _ _ ?x] =>
      replace x with w0
        by (unfold w0, check_start, check_banner, declared_mode, is_legacy; simpl;
            f_equal; by rewrite <- !app_assoc)
  end.
  change (_resources_to_prettyrows
            (as_objects RNetwork (conn.networks (project_query (cloud w)))) all_resources)
    with (listing 0 c all_resources).
  change (_resources_to_prettyrows (as_objects RRouter conn.routers) all_resources)
    with (listing 1 c all_resources).
  change (_resources_to_prettyrows (as_objects RFloatingIP conn.ips) all_resources)
    with (listing 2 c all_resources).
  change (_resources_to_prettyrows (as_objects RServer conn.servers) all_resources)
    with (listing 3 c all_resources).
  rewrite (run_eq (listing 0 c all_resources) w0). fold w1.
  destruct (result (listing 0 c all_resources) w0) as [e|rows0]; cbn [cloud stdout trace fst snd];
    [split; [congruence|f_equal; congruence]|].
  rewrite (run_eq (listing 1 c all_resources) w1). fold w2.
  destruct (result (listing 1 c all_resources) w1) as [e|rows1]; cbn [cloud stdout trace fst snd];
    [split; [congruence|f_equal; congruence]|].
  rewrite (run_eq (listing 2 c all_resources) w2). fold w3.
  destruct (result (listing 2 c all_resources) w2) as [e|rows2]; cbn [cloud stdout trace fst snd];
    [split; [congruence|f_equal; congruence]|].
  rewrite (run_eq (listing 3 c all_resources) w3). fold w4.
  destruct (result (listing 3 c all_resources) w3) as [e|rows3]; cbn [cloud stdout trace fst snd];
    [split; [congruence|f_equal; congruence]|].
  assert (C : cloud w4 = c) by congruence.
  assert (S : stdout w4 = (stdout w ++ check_banner c)%list) by congruence.
  clearbody w4. clear C1 C2 C3 C4 S1 S2 S3 S4 S0 C0. clearbody w3 w2 w1 w0.
  rewrite C. unfold check_output, check_banner, declared_mode, is_legacy in *. subst c.
  set (rows := (rows0 ++ rows1 ++ rows2 ++ rows3)%list).
  destruct rows as [|row rows'] eqn:Hrows; simpl;
    destruct (bool_decide (TAG_LEGACY ∈ project_tags (project (cloud w)))) eqn:E; simpl;
    rewrite ?C, ?E; simpl; (split; [done|]); rewrite S; simpl;
    rewrite <- ?app_assoc; reflexivity.
Qed.



(** ** C2: the report does not gate itself *)

(** A request for the resources that [check] reports on or for the
    project; the requests of the privilege check are not among them. *)
Definition is_resource_request (e : event) : bool :=
  match e with
  | GetProject _ | ListNetworks _ | GetNetwork _ | ListPorts _ _
  | ListRouters | ListIps | ListServers | ListServerInterfaces _ => true
  | _ => false
  end.

Create HintDb lists.

Section Lists.
Variable P : event → Prop.
Hypothesis P_request : ∀ e, is_resource_request e = true → P e.

Local Hint Extern 1 (P _) => (apply P_request; reflexivity) : core.

Lemma lists_get_project : reads P conn.get_project.
Proof. unfold conn.get_project. step_reads. Qed.

Lemma lists_networks q : reads P (conn.networks q).
Proof. unfold conn.networks. step_reads. Qed.

Lemma lists_get_network i : reads P (conn.get_network i).
Proof. unfold conn.get_network. step_reads. Qed.

Lemma lists_ports d o : reads P (conn.ports d o).
Proof. unfold conn.ports. step_reads. Qed.

Lemma lists_routers : reads P conn.routers.
Proof. unfold conn.routers. step_reads. Qed.

Lemma lists_ips : reads P conn.ips.
Proof. unfold conn.ips. step_reads. Qed.

Lemma lists_servers : reads P conn.servers.
Proof. unfold conn.servers. step_reads. Qed.

Lemma lists_server_interfaces s : reads P (conn.server_interfaces s).
Proof. unfold conn.server_interfaces. step_reads. Qed.

Local Hint Resolve lists_get_project
  lists_networks lists_get_network lists_ports lists_routers lists_ips
  lists_servers lists_server_interfaces : lists.

Ltac lists_tac := repeat first [progress step_reads | progress eauto with lists].

Lemma lists_is_legacy_project : reads P is_legacy_project.
Proof. unfold is_legacy_project. lists_tac. Qed.

Lemma lists_is_legacy_network x : reads P (is_legacy_network x).
Proof. unfold is_legacy_network. lists_tac. Qed.

Local Hint Resolve lists_is_legacy_project
  lists_is_legacy_network : lists.

Lemma lists_PrettyFIP_rule o : reads P (PrettyFIP_get_recommendation o).
Proof. unfold PrettyFIP_get_recommendation, attr_floating_ip. lists_tac. Qed.

Lemma lists_PrettyNetwork_rule o : reads P (PrettyNetwork_get_recommendation o).
Proof. unfold PrettyNetwork_get_recommendation. lists_tac. Qed.

Lemma lists_PrettyRouter_rule o : reads P (PrettyRouter_get_recommendation o).
Proof.
  unfold PrettyRouter_get_recommendation, attr_external_gateway_info, py_list.
  lists_tac.
Qed.

Lemma lists_legacy_networks_loop l acc : reads P (legacy_networks_loop l acc).
Proof.
  revert acc. induction l as [|i l IH]; intros acc; simpl; [lists_tac|].
  apply reads_bind; [apply lists_get_network|intros n].
  apply reads_bind; [apply lists_is_legacy_network|intros b]. apply IH.
Qed.

Local Hint Resolve lists_legacy_networks_loop : lists.

Lemma lists_PrettyServer_rule o : reads P (PrettyServer_get_recommendation o).
Proof. unfold PrettyServer_get_recommendation, py_list. lists_tac. Qed.

Lemma lists_PrettyResource_init rule o :
  (∀ r, reads P (rule r)) → reads P (PrettyResource_init rule o).
Proof. intros H. unfold PrettyResource_init. lists_tac. Qed.

Lemma lists_resource_to_prettyresource o : reads P (_resource_to_prettyresource o).
Proof.
  unfold _resource_to_prettyresource.
  destruct o as [r|t]; [|lists_tac].
  destruct (_query_map !! resource_key r) as [cls|]; [|lists_tac].
  unfold globals.
  repeat (match goal with |- context [String.eqb cls ?s] => destruct (String.eqb cls s) end);
    try (apply lists_PrettyResource_init; intros;
         first [apply lists_PrettyFIP_rule | apply lists_PrettyNetwork_rule
               | apply lists_PrettyRouter_rule | apply lists_PrettyServer_rule]).
  lists_tac.
Qed.

Lemma lists_resources_to_prettyrows g all :
  reads P g → reads P (_resources_to_prettyrows g all).
Proof.
  intros Hg. unfold _resources_to_prettyrows.
  step_reads; [exact Hg|].
  step_reads.
  apply reads_traverse, lists_resource_to_prettyresource.
Qed.

Lemma lists_as_objects {A} (inj : A → Resource) g :
  reads P g → reads P (as_objects inj g).
Proof. intros Hg. unfold as_objects. step_reads. exact Hg. Qed.

Lemma lists_check args : P (Call "check") → reads P (check args).
Proof.
  intros HP. unfold check, args_all_resources.
  repeat first
    [ apply lists_resources_to_prettyrows; apply lists_as_objects
    | apply reads_bind; [|intros ?]
    | progress eauto with lists
    | progress step_reads ].
Qed.
End Lists.

(** [check] prints its banner whatever happens next. *)
Lemma check_prints_banner (all_resources : bool) (w : World) :
  ∃ out,
    stdout (after (check (CheckArgs all_resources)) w)
    = (stdout w
       ++ [Line ("Project: " +:+ project_name (project (cloud w)));
           Line ("Networking: " +:+ declared_mode (cloud w));
           Line "Checking resources. This might take a while..."]
       ++ out)%list.
Proof.
  destruct (check_observed all_resources w) as [_ Hobs]. cbv zeta in Hobs.
  repeat (match type of Hobs with
          | context [match ?r with inl _ => _ | inr _ => _ end] => destruct r
          end);
    injection Hobs as _ ->.
  1-4: by exists [].
  eexists. unfold check_output. simpl. reflexivity.
Qed.

(** C2, amended. It is [main] that runs [check_sanity] before [check]:
    when the gate fails for a [check] command line, [main] returns
    normally, [check] is not entered, and nothing is printed but the one
    sanity message (no banner, no table, no summary); when the gate passes,
    [check] runs next.  [check] itself does not gate: in any world,
    whatever [check_sanity] would return there, it never enters
    [check_sanity], makes no request but those for the project and the
    resources (none of the privilege check), and prints the project
    banner, the networking mode and the progress line. *)
Theorem check_gated_by_main (argv : list string) (all_resources : bool) (w : World) :
  result (parse_args argv) w = inr (CheckArgs all_resources) →
  (result check_sanity w = inr false →
   result (main argv) w = inr ()
   ∧ (∃ msg, (msg = MSG_NO_PRIVILEGE_CHECK ∨ msg = MSG_RECENTLY_SWITCHED)
             ∧ stdout (after (main argv) w) = (stdout w ++ [Line msg])%list)
   ∧ ∃ evs, trace (after (main argv) w) = (trace w ++ evs)%list
            ∧ entered "check" evs = false)
  ∧ (result check_sanity w = inr true →
     main argv w = check (CheckArgs all_resources) (after check_sanity w))
  ∧ ∀ w0,
      (∃ evs,
         trace (after (check (CheckArgs all_resources)) w0) = (trace w0 ++ evs)%list
         ∧ entered "check_sanity" evs = false
         ∧ Forall (λ e, e = Call "check" ∨ is_resource_request e = true) evs)
      ∧ ∃ out,
          stdout (after (check (CheckArgs all_resources)) w0)
          = (stdout w0
             ++ [Line ("Project: " +:+ project_name (project (cloud w0)));
                 Line ("Networking: " +:+ declared_mode (cloud w0));
                 Line "Checking resources. This might take a while..."]
             ++ out)%list.
Proof.
  intros Hp. pose proof (main_run _ _ _ Hp) as Hmain.
  destruct (check_sanity_trace w) as (Hc & evs & Ht & Hq).
  pose proof (check_sanity_false w) as Hf.
  unfold result, after in Hmain, Ht, Hf, Hc |- *.
  split; [|split].
  - intros Hs. rewrite Hmain.
    destruct (check_sanity w) as [[e|[|]] w']; simpl in *; try discriminate.
    split; [done|]. split; [by apply Hf|].
    exists (Call "check_sanity" :: evs). split; [done|].
    apply entered_false. intros [[=]|Hin]%elem_of_cons.
    rewrite Forall_forall in Hq. by apply Hq in Hin.
  - intros Hs. rewrite Hmain. by destruct (check_sanity w) as [[e|[|]] w'].
  - intros w0. split; [|apply check_prints_banner].
    pose (P := λ e, e = Call "check" ∨ is_resource_request e = true).
    destruct (lists_check P ltac:(by right) (CheckArgs all_resources) ltac:(by left) w0)
      as [_ (evc & Htc & HP)].
    exists evc. split; [exact Htc|]. split; [|exact HP].
    apply entered_false. intros Hin. rewrite Forall_forall in HP.
    by destruct (HP _ Hin).
Qed.

(** C2, amended, for [check --all] run by a user without the role. *)
Lemma check_gated_by_main_witness :
  result (parse_args ["check"; "--all"]) (fresh Samples.unprivileged_cloud)
    = inr (CheckArgs true)
  ∧ result check_sanity (fresh Samples.unprivileged_cloud) = inr false
  ∧ result (main ["check"; "--all"]) (fresh Samples.unprivileged_cloud) = inr ().
Proof.
  assert (H1 : result (parse_args ["check"; "--all"]) (fresh Samples.unprivileged_cloud)
               = inr (CheckArgs true)) by reflexivity.
  assert (H2 : result check_sanity (fresh Samples.unprivileged_cloud) = inr false)
    by (vm_compute; reflexivity).
  split; [exact H1|]. split; [exact H2|].
  exact (proj1 (proj1 (check_gated_by_main _ _ _ H1) H2)).
Defined.
